(** * Flight SQL SQLite example server: command translation and statement
      lifecycle

    A shallow embedding of
    [cpp/src/arrow/flight/flight-sql/example/sqlite_server.cc] and the
    properties of its type mapper, metadata query builders, prepared
    statement registry and parameter binder. *)

From Stdlib Require Import ZArith Lia Bool List Ascii String DecimalString.
From Stdlib Require Import DecimalPos DecimalZ.
From Stdlib.Strings Require Import Byte.
From stdpp Require Import base option list gmap strings.

Local Open Scope string_scope.

(** ** Arrow data types

    The part of Arrow's type system the server touches.  [TypeId] follows
    the enumerators of [arrow::Type] that occur in the file or in the
    tagged parameter encoding; [DataType] is the value behind a
    [std::shared_ptr<DataType>]. *)

Inductive TypeId : Type :=
| NA | BOOL | INT32 | INT64 | FLOAT | DOUBLE | STRING | BINARY
| LIST | MAP | DENSE_UNION.

#[warnings="-register-all"]
Inductive DataType : Type :=
| null
| boolean
| int32
| int64
| float32
| float64
| utf8
| binary
| list_ (item : DataType)
| map_ (key value : DataType)
| dense_union (children : list DataType).

Definition type_id (t : DataType) : TypeId :=
  match t with
  | null => NA
  | boolean => BOOL
  | int32 => INT32
  | int64 => INT64
  | float32 => FLOAT
  | float64 => DOUBLE
  | utf8 => STRING
  | binary => BINARY
  | list_ _ => LIST
  | map_ _ _ => MAP
  | dense_union _ => DENSE_UNION
  end.

(** [std::to_string] on an [int]. *)
Definition std_to_string (z : Z) : string :=
  DecimalString.NilZero.string_of_int (Z.to_int z).

(** ** Type mapper: [GetArrowType] *)

Module TypeMapper.

Definition is_lower (c : ascii) : bool :=
  (97 <=? nat_of_ascii c)%nat && (nat_of_ascii c <=? 122)%nat.

Definition is_upper (c : ascii) : bool :=
  (65 <=? nat_of_ascii c)%nat && (nat_of_ascii c <=? 90)%nat.

(** [std::toupper] in the classic locale, which is what
    [boost::is_iequal] applies to both sides. *)
Definition toupper (c : ascii) : ascii :=
  if is_lower c then ascii_of_nat (nat_of_ascii c - 32) else c.

Definition tolower (c : ascii) : ascii :=
  if is_upper c then ascii_of_nat (nat_of_ascii c + 32) else c.

Definition is_iequal (a b : ascii) : bool :=
  Ascii.eqb (toupper a) (toupper b).

(** [boost::iequals]: walk both ranges together, fail on the first
    mismatch, succeed only when both are exhausted. *)
Fixpoint iequals (input test : string) : bool :=
  match input, test with
  | EmptyString, EmptyString => true
  | String i input', String t test' =>
      if is_iequal i t then iequals input' test' else false
  | _, _ => false
  end.

(** [boost::istarts_with]: same walk, succeed as soon as the test range
    is exhausted. *)
Fixpoint istarts_with (input test : string) : bool :=
  match test with
  | EmptyString => true
  | String t test' =>
      match input with
      | EmptyString => false
      | String i input' =>
          if is_iequal i t then istarts_with input' test' else false
      end
  end.

(** [sqlite_type] is a [const char*]; [None] is [NULLPTR]. *)
Definition GetArrowType (sqlite_type : option string) : DataType :=
  match sqlite_type with
  | None => null
  | Some sqlite_type =>
      if iequals sqlite_type "int" || iequals sqlite_type "integer" then
        int64
      else if iequals sqlite_type "REAL" then
        float64
      else if iequals sqlite_type "BLOB" then
        binary
      else if iequals sqlite_type "TEXT"
              || istarts_with sqlite_type "char"
              || istarts_with sqlite_type "varchar" then
        utf8
      else
        null
  end.

(** The rules as the specification words them: lower-case the name,
    then compare it or its beginning with the lower-case keywords. *)
Fixpoint lowercase (s : string) : string :=
  match s with
  | EmptyString => EmptyString
  | String c s' => String (tolower c) (lowercase s')
  end.

Definition Map_rules (name : option string) : DataType :=
  match name with
  | None => null
  | Some n =>
      let l := lowercase n in
      if String.eqb l "int" || String.eqb l "integer" then int64
      else if String.eqb l "real" then float64
      else if String.eqb l "blob" then binary
      else if String.eqb l "text" || String.prefix "char" l
              || String.prefix "varchar" l then utf8
      else null
  end.

End TypeMapper.

(** ** Metadata query builder *)

Module QueryBuilder.

(** [pb::sql::CommandGetTables]: an optional protobuf field is [None]
    when [has_*()] is false. *)
Record CommandGetTables : Type := {
  catalog : option string;
  schema_filter_pattern : option string;
  table_name_filter_pattern : option string;
  table_types : list string;
  include_schema : bool
}.

(** The body of [for (int i = 0; i < size; i++)]: [todo] counts the
    iterations still to run, [i] is the loop variable and [table_query]
    the text streamed so far. *)
Fixpoint table_types_loop (types : list string) (size : Z) (todo : nat)
    (i : Z) (table_query : string) : string :=
  match todo with
  | O => table_query
  | S todo' =>
      let table_query :=
        table_query ++ "'" ++ nth (Z.to_nat i) types "" ++ "'" in
      let table_query :=
        if negb (size - 1 =? i)%Z then table_query ++ "," else table_query in
      table_types_loop types size todo' (i + 1)%Z table_query
  end.

Definition PrepareQueryForGetTables (command : CommandGetTables) : string :=
  let table_query :=
    "SELECT null as catalog_name, null as schema_name, name as "
    ++ "table_name, type as table_type FROM sqlite_master where 1=1" in
  let table_query :=
    match catalog command with
    | Some c => table_query ++ " and catalog_name='" ++ c ++ "'"
    | None => table_query
    end in
  let table_query :=
    match schema_filter_pattern command with
    | Some p => table_query ++ " and schema_name LIKE '" ++ p ++ "'"
    | None => table_query
    end in
  let table_query :=
    match table_name_filter_pattern command with
    | Some p => table_query ++ " and table_name LIKE '" ++ p ++ "'"
    | None => table_query
    end in
  let table_query :=
    match table_types command with
    | [] => table_query
    | types =>
        let table_query := table_query ++ " and table_type IN (" in
        let size := Z.of_nat (List.length types) in
        let table_query :=
          table_types_loop types size (List.length types) 0%Z table_query in
        table_query ++ ")"
    end in
  table_query ++ " order by table_name".

(** The closed form the specification describes: one clause per present
    filter, the requested types quoted and joined by commas. *)
Definition quoted (s : string) : string := "'" ++ s ++ "'".

Definition optional_clause (before : string) (field : option string)
    : string :=
  match field with
  | Some v => before ++ v ++ "'"
  | None => ""
  end.

Definition table_types_clause (types : list string) : string :=
  match types with
  | [] => ""
  | _ => " and table_type IN (" ++ String.concat "," (map quoted types) ++ ")"
  end.

Definition GetTables_text (command : CommandGetTables) : string :=
  "SELECT null as catalog_name, null as schema_name, name as table_name, type as table_type FROM sqlite_master where 1=1"
  ++ optional_clause " and catalog_name='" (catalog command)
  ++ optional_clause " and schema_name LIKE '" (schema_filter_pattern command)
  ++ optional_clause " and table_name LIKE '"
       (table_name_filter_pattern command)
  ++ table_types_clause (table_types command)
  ++ " order by table_name".

(** [s] occurs in [t]; [t] ends in [s]. *)
Definition occurs_in (s t : string) : Prop :=
  exists before after, t = before ++ s ++ after.

Definition ends_in (t s : string) : Prop :=
  exists before, t = before ++ s.

(** The double quote character of the raw string literals. *)
Definition dq : string := String (ascii_of_nat 34) EmptyString.

Definition PrepareQueryForGetImportedOrExportedKeys (filter : string)
    : string :=
  ("SELECT * FROM (SELECT NULL AS pk_catalog_name,
    NULL AS pk_schema_name,
    p." ++ dq ++ "table" ++ dq ++ " AS pk_table_name,
    p." ++ dq ++ "to" ++ dq ++ " AS pk_column_name,
    NULL AS fk_catalog_name,
    NULL AS fk_schema_name,
    m.name AS fk_table_name,
    p." ++ dq ++ "from" ++ dq ++ " AS fk_column_name,
    p.seq AS key_sequence,
    NULL AS pk_key_name,
    NULL AS fk_key_name,
    CASE
        WHEN p.on_update = 'CASCADE' THEN 0
        WHEN p.on_update = 'RESTRICT' THEN 1
        WHEN p.on_update = 'SET NULL' THEN 2
        WHEN p.on_update = 'NO ACTION' THEN 3
        WHEN p.on_update = 'SET DEFAULT' THEN 4
    END AS update_rule,
    CASE
        WHEN p.on_delete = 'CASCADE' THEN 0
        WHEN p.on_delete = 'RESTRICT' THEN 1
        WHEN p.on_delete = 'SET NULL' THEN 2
        WHEN p.on_delete = 'NO ACTION' THEN 3
        WHEN p.on_delete = 'SET DEFAULT' THEN 4
    END AS delete_rule
  FROM sqlite_master m
  JOIN pragma_foreign_key_list(m.name) p ON m.name != p." ++ dq ++ "table" ++ dq ++ "
  WHERE m.type = 'table') WHERE ")
  ++ filter ++
  " ORDER BY
  pk_catalog_name, pk_schema_name, pk_table_name, pk_key_name, key_sequence".

End QueryBuilder.

(** ** The imported/exported keys query, read relationally

    The text built by [PrepareQueryForGetImportedOrExportedKeys] is a
    program of its own, run by the engine.  [KeysQuery] gives its syntax
    (select list, join condition, ordering columns) as data, a printer
    that yields the text of the source character for character, and the
    evaluation of its inner selection (the part before the spliced
    filter) over the two relations it reads: [sqlite_master] and the
    table-valued [pragma_foreign_key_list]. *)

Module KeysQuery.
Import QueryBuilder.

Inductive sqlval : Type :=
| SqlNull
| SqlInt (z : Z)
| SqlText (s : string).








(** *** Printer *)

Definition nl : string := String (ascii_of_nat 10) EmptyString.






(** *** Evaluation *)









(** An output row: the value of each select-list alias. *)
Definition row : Type := list (string * sqlval).

Fixpoint field (r : row) (alias : string) : sqlval :=
  match r with
  | [] => SqlNull
  | (a, v) :: r' => if String.eqb a alias then v else field r' alias
  end.




(** *** Parts of the syntax, table names, example databases *)









End KeysQuery.

(** ** Prepared statement handles: [boost::uuids::uuid]

    A uuid is its sixteen data bytes.  [to_string] and [lexical_cast]
    follow [boost/uuid/uuid_io.hpp]: [to_string] prints two lower-case
    hexadecimal digits per byte with a dash after bytes 3, 5, 7 and 9;
    [lexical_cast] runs the stream extraction operator over the whole
    text and fails (the C++ throws [bad_lexical_cast]) unless it reads
    exactly one uuid and nothing is left. *)

Module Uuid.

Definition uuid : Type := list byte.

#[global] Instance byte_eq_dec : EqDecision byte := Byte.byte_eq_dec.

#[global] Instance byte_countable : Countable byte :=
  inj_countable Byte.to_N Byte.of_N Byte.of_to_N.

Definition well_formed (u : uuid) : Prop := List.length u = 16%nat.

(** [detail::to_char] *)
Definition to_char (i : N) : ascii :=
  if (i <=? 9)%N then ascii_of_N (48 + i) else ascii_of_N (97 + (i - 10)).

Definition dash_after (i : nat) : bool :=
  (i =? 3)%nat || (i =? 5)%nat || (i =? 7)%nat || (i =? 9)%nat.

Fixpoint to_string_from (i : nat) (data : list byte) : string :=
  match data with
  | [] => ""
  | b :: data' =>
      let hi := N.land (N.shiftr (Byte.to_N b) 4) 15 in
      let lo := N.land (Byte.to_N b) 15 in
      String (to_char hi) (String (to_char lo)
        ((if dash_after i then "-" else "") ++ to_string_from (S i) data'))
  end.

Definition to_string (u : uuid) : string := to_string_from 0 u.

Definition xdigits : string := "0123456789ABCDEF".

(** [std::find] over [xdigits], as a distance from its beginning. *)
Fixpoint find (c : ascii) (digits : string) (at_ : N) : option N :=
  match digits with
  | EmptyString => None
  | String d digits' =>
      if Ascii.eqb d c then Some at_ else find c digits' (at_ + 1)
  end.

Definition xdigit (c : ascii) : option N :=
  find (TypeMapper.toupper c) xdigits 0.

Definition make_byte (hi lo : N) : byte :=
  default "000"%byte (Byte.of_N (N.lor (N.shiftl hi 4) lo mod 256)).

(** The extraction loop from byte [i] on, [todo] bytes to go; the
    result is the bytes read and the text left in the stream. *)
Fixpoint read_bytes (todo : nat) (i : nat) (input : string)
    : option (list byte * string) :=
  match todo with
  | O => Some ([], input)
  | S todo' =>
      match input with
      | String c1 (String c2 input') =>
          hi ← xdigit c1;
          lo ← xdigit c2;
          input'' ← (if dash_after i then
                    match input' with
                    | String c input'' =>
                        if Ascii.eqb c "-" then Some input'' else None
                    | EmptyString => None
                    end
                  else Some input');
          '(data, rest) ← read_bytes todo' (S i) input'';
          Some (make_byte hi lo :: data, rest)
      | _ => None
      end
  end.

(** [boost::lexical_cast<uuid>]; [None] is the thrown
    [bad_lexical_cast]. *)
Definition lexical_cast (text : string) : option uuid :=
  match read_bytes 16 0 text with
  | Some (data, EmptyString) => Some data
  | _ => None
  end.

Definition hi_nibble (b : byte) : N := N.land (N.shiftr (Byte.to_N b) 4) 15.
Definition lo_nibble (b : byte) : N := N.land (Byte.to_N b) 15.

End Uuid.

(** ** Status values, exceptions and the handler monad *)

Inductive StatusCode : Type :=
| OK | OutOfMemory | KeyError | TypeError | Invalid | IOError
| CapacityError | IndexError | Cancelled | UnknownError | NotImplemented.

Record Status : Type := { code : StatusCode; message : string }.

Definition Status_Invalid (msg : string) : Status :=
  {| code := Invalid; message := msg |}.

Definition Status_IndexError (msg : string) : Status :=
  {| code := IndexError; message := msg |}.

Inductive Exception : Type := bad_lexical_cast.

(** What a call hands back: a value ([Status::OK()] and the output
    argument), a non-OK [Status] returned to the caller, or an exception
    that leaves the function. *)
Inductive Outcome (A : Type) : Type :=
| Done (a : A)
| Failed (s : Status)
| Thrown (e : Exception).

Arguments Done {A} a.
Arguments Failed {A} s.
Arguments Thrown {A} e.

(** Modelled from the spec: the error classes of its taxonomy, which is
    not part of the source.  They are told apart by the Arrow status
    code: InvalidArgument is [Invalid], NotFound is [KeyError], the code
    Arrow keeps for a key that is missing, EngineError any other
    failure. *)
Inductive ErrorClass : Type := NotFound | InvalidArgument | EngineError.

Definition has_class (cls : ErrorClass) (s : Status) : Prop :=
  match cls with
  | NotFound => code s = KeyError
  | InvalidArgument => code s = Invalid
  | EngineError =>
      code s <> OK /\ code s <> KeyError /\ code s <> Invalid
  end.

(** ** Arrow values: schemas, scalars, arrays, record batches *)

Record Field : Type := field { field_name : string; field_type : DataType }.

Definition Schema : Type := list Field.

(** [DataType::ToString] for the types a parameter cell can hold. *)
Fixpoint ToString (t : DataType) : string :=
  match t with
  | null => "null"
  | boolean => "bool"
  | int32 => "int32"
  | int64 => "int64"
  | float32 => "float"
  | float64 => "double"
  | utf8 => "string"
  | binary => "binary"
  | list_ item => "list<item: " ++ ToString item ++ ">"
  | map_ key value => "map<" ++ ToString key ++ ", " ++ ToString value ++ ">"
  | dense_union _ => "dense_union"
  end.

(** C [float] and [double] values by their bit patterns; widening a
    [float] to a [double] is kept symbolic. *)
Inductive c_float : Type := float_bits (bits : Z).

Inductive c_double : Type :=
| double_bits (bits : Z)
| double_of_float (f : c_float).

(** A [Buffer] is its bytes. *)
Definition Buffer : Type := list byte.

(** The child scalar a [DenseUnionScalar] holds ([holder] in the
    binder); [ListScalar] and [MapScalar] carry their type only. *)
Inductive Scalar : Type :=
| BooleanScalar (value : bool)
| Int32Scalar (value : Z)
| Int64Scalar (value : Z)
| FloatScalar (value : c_float)
| DoubleScalar (value : c_double)
| StringScalar (value : Buffer)
| BinaryScalar (value : Buffer)
| ListScalar (item : DataType)
| MapScalar (key item : DataType).

Definition scalar_type (s : Scalar) : DataType :=
  match s with
  | BooleanScalar _ => boolean
  | Int32Scalar _ => int32
  | Int64Scalar _ => int64
  | FloatScalar _ => float32
  | DoubleScalar _ => float64
  | StringScalar _ => utf8
  | BinaryScalar _ => binary
  | ListScalar item => list_ item
  | MapScalar key item => map_ key item
  end.

(** A column of a parameter batch: per row, the scalar the union holds. *)
Definition Array : Type := list Scalar.

Record RecordBatch : Type := {
  batch_schema : Schema;
  num_rows : Z;
  columns : list Array
}.

Definition num_columns (b : RecordBatch) : Z := Z.of_nat (List.length (columns b)).

(** ** The engine: compiled statements and bind calls *)

Inductive destructor_type : Type := SQLITE_STATIC | SQLITE_TRANSIENT.

(** The [sqlite3_bind_*] calls, with their arguments after the statement:
    the 1-based index, the value or the bytes the pointer refers to, the
    byte count and the destructor. *)
Inductive BindCall : Type :=
| sqlite3_bind_int64 (index : Z) (value : Z)
| sqlite3_bind_double (index : Z) (value : c_double)
| sqlite3_bind_text (index : Z) (value : list byte) (n : Z)
    (destructor : destructor_type)
| sqlite3_bind_blob (index : Z) (value : list byte) (n : Z)
    (destructor : destructor_type).

(** A compiled statement ([SqliteStatement] and the [sqlite3_stmt] it
    wraps): its text, the name and declared type of each output column,
    the name of each bind parameter ([None] for a nameless one) and the
    bind calls made on it so far, oldest first. *)
Record SqliteStatement : Type := {
  stmt_sql : string;
  stmt_columns : list (string * option string);
  stmt_parameters : list (option string);
  stmt_bound : list BindCall
}.

Definition sqlite3_bind_parameter_count (stmt : SqliteStatement) : Z :=
  Z.of_nat (List.length (stmt_parameters stmt)).

(** The name of the parameter with 1-based index [k]; NULL when it is
    nameless or out of range. *)
Definition sqlite3_bind_parameter_name (stmt : SqliteStatement) (k : Z)
    : option string :=
  if (1 <=? k)%Z then mjoin (stmt_parameters stmt !! Z.to_nat (k - 1))
  else None.

Definition sqlite3_bind (call : BindCall) (stmt : SqliteStatement)
    : SqliteStatement :=
  {| stmt_sql := stmt_sql stmt;
     stmt_columns := stmt_columns stmt;
     stmt_parameters := stmt_parameters stmt;
     stmt_bound := stmt_bound stmt ++ [call] |}.

(** The bytes the engine keeps for a text or blob bind with a
    non-negative count: the first [n] the pointer refers to. *)
Definition bound_bytes (call : BindCall) : list byte :=
  match call with
  | sqlite3_bind_text _ value n _ | sqlite3_bind_blob _ value n _ =>
      take (Z.to_nat n) value
  | _ => []
  end.

(** The engine handle [db_]: what preparing a text yields, and the texts
    handed to it so far, oldest first. *)
Record sqlite3 : Type := {
  sqlite3_prepare : string -> Status + SqliteStatement;
  prepared_texts : list string
}.

(** ** The server *)

Module Server.
Import Uuid TypeMapper QueryBuilder.

(** [uuid_generator_] is a random generator: the values it is going to
    return are a tape, [uuid_draws] counts the draws made. *)
Record SQLiteFlightSqlServer : Type := {
  db_ : sqlite3;
  prepared_statements_ : gmap uuid SqliteStatement;
  uuid_generator_ : nat -> uuid;
  uuid_draws : nat
}.

(** A member function: from the server before the call to what the
    call hands back and the server after it. *)
Definition M (A : Type) : Type :=
  SQLiteFlightSqlServer -> Outcome A * SQLiteFlightSqlServer.

Definition ret {A} (a : A) : M A := fun srv => (Done a, srv).

Definition fail {A} (s : Status) : M A := fun srv => (Failed s, srv).

Definition throw {A} (e : Exception) : M A := fun srv => (Thrown e, srv).

Definition bind {A B} (m : M A) (k : A -> M B) : M B :=
  fun srv =>
    match m srv with
    | (Done a, srv') => k a srv'
    | (Failed s, srv') => (Failed s, srv')
    | (Thrown e, srv') => (Thrown e, srv')
    end.

Definition get : M SQLiteFlightSqlServer := fun srv => (Done srv, srv).

Definition put (srv' : SQLiteFlightSqlServer) : M unit :=
  fun _ => (Done tt, srv').

Notation "x <- m ;; k" := (bind m (fun x => k))
  (at level 100, m at next level, right associativity).

Definition with_db (db : sqlite3) (srv : SQLiteFlightSqlServer) :=
  {| db_ := db;
     prepared_statements_ := prepared_statements_ srv;
     uuid_generator_ := uuid_generator_ srv;
     uuid_draws := uuid_draws srv |}.

Definition with_prepared_statements (m : gmap uuid SqliteStatement)
    (srv : SQLiteFlightSqlServer) :=
  {| db_ := db_ srv;
     prepared_statements_ := m;
     uuid_generator_ := uuid_generator_ srv;
     uuid_draws := uuid_draws srv |}.

(** [uuid_generator_()] *)
Definition generate_uuid : M uuid :=
  fun srv =>
    (Done (uuid_generator_ srv (uuid_draws srv)),
     {| db_ := db_ srv;
        prepared_statements_ := prepared_statements_ srv;
        uuid_generator_ := uuid_generator_ srv;
        uuid_draws := S (uuid_draws srv) |}).

(** [boost::lexical_cast<boost::uuids::uuid>(handle)] inside a member
    function: the exception is not caught. *)
Definition lexical_cast_uuid (handle : string) : M uuid :=
  match lexical_cast handle with
  | Some u => ret u
  | None => throw bad_lexical_cast
  end.

(** Modelled from the spec: [SqliteStatement::Create], whose source
    (sqlite_statement.cc) is not part of the files at hand.  It
    compiles the text against the engine and hands back the compiled
    statement, or the status of the engine's rejection. *)
Definition SqliteStatement_Create (sql : string) : M SqliteStatement :=
  fun srv =>
    let db := {| sqlite3_prepare := sqlite3_prepare (db_ srv);
                 prepared_texts := prepared_texts (db_ srv) ++ [sql] |} in
    match sqlite3_prepare (db_ srv) sql with
    | inr statement => (Done statement, with_db db srv)
    | inl status => (Failed status, with_db db srv)
    end.

(** Modelled from the spec: [SqliteStatement::GetSchema], from the same
    missing file.  The dataset schema has one field per declared
    output column, typed by the type mapper. *)
Definition GetSchema (statement : SqliteStatement) : M Schema :=
  ret (map (fun col => field (fst col) (GetArrowType (snd col)))
           (stmt_columns statement)).

Inductive RecordBatchReader : Type :=
| SqliteStatementBatchReader (statement : SqliteStatement) (schema : Schema)
| SqliteTablesWithSchemaBatchReader (reader : RecordBatchReader)
    (main_query : string)
| BatchesReader (batches : list RecordBatch).

Inductive FlightDataStream : Type :=
| RecordBatchStream (reader : RecordBatchReader).

(** Modelled from the spec: the two [SqliteStatementBatchReader::Create]
    overloads (sqlite_statement_batch_reader.cc is missing as well):
    the reader pages the statement's rows under the given schema, or
    under the statement's own. *)
Definition SqliteStatementBatchReader_Create_with (statement : SqliteStatement)
    (schema : Schema) : M RecordBatchReader :=
  ret (SqliteStatementBatchReader statement schema).

Definition SqliteStatementBatchReader_Create (statement : SqliteStatement)
    : M RecordBatchReader :=
  schema <- GetSchema statement ;;
  ret (SqliteStatementBatchReader statement schema).

Definition DoGetSQLiteQuery (query : string) (schema : Schema)
    : M FlightDataStream :=
  statement <- SqliteStatement_Create query ;;
  reader <- SqliteStatementBatchReader_Create_with statement schema ;;
  ret (RecordBatchStream reader).

(** [RecordBatch::Make(schema, num_rows, columns)] *)
Definition RecordBatch_Make (schema : Schema) (rows : Z)
    (cols : list Array) : RecordBatch :=
  {| batch_schema := schema; num_rows := rows; columns := cols |}.

(** [StringBuilder::Finish] on a builder nothing was appended to. *)
Definition StringBuilder_Finish_empty : M Array := ret [].

Record CommandGetSchemas : Type := {
  schemas_catalog : option string;
  schemas_schema_filter_pattern : option string
}.

(** [CommandGetImportedKeys] and [CommandGetExportedKeys] have the same
    three fields. *)
Record CommandGetKeys : Type := {
  keys_catalog : option string;
  keys_schema : option string;
  keys_table : string
}.

Section Metadata.
(** The fixed metadata schemas of [SqlSchema], supplied from outside
    the file. *)
Variables GetCatalogsSchema GetSchemasSchema GetTablesSchema
  GetTableTypesSchema GetImportedAndExportedKeysSchema : Schema.

Definition DoGetCatalogs : M FlightDataStream :=
  let schema := GetCatalogsSchema in
  catalog_name <- StringBuilder_Finish_empty ;;
  let batch := RecordBatch_Make schema 0 [catalog_name] in
  ret (RecordBatchStream (BatchesReader [batch])).

Definition DoGetSchemas (command : CommandGetSchemas)
    : M FlightDataStream :=
  let schema := GetSchemasSchema in
  catalog_name <- StringBuilder_Finish_empty ;;
  schema_name <- StringBuilder_Finish_empty ;;
  let batch := RecordBatch_Make schema 0 [catalog_name; schema_name] in
  ret (RecordBatchStream (BatchesReader [batch])).

Definition DoGetTables (command : CommandGetTables) : M FlightDataStream :=
  let query := PrepareQueryForGetTables command in
  statement <- SqliteStatement_Create query ;;
  reader <- SqliteStatementBatchReader_Create_with statement
              GetTablesSchema ;;
  if include_schema command then
    ret (RecordBatchStream (SqliteTablesWithSchemaBatchReader reader query))
  else
    ret (RecordBatchStream reader).

Definition DoGetTableTypes : M FlightDataStream :=
  let query := "SELECT DISTINCT type as table_type FROM sqlite_master" in
  DoGetSQLiteQuery query GetTableTypesSchema.

Definition DoGetImportedKeys (command : CommandGetKeys)
    : M FlightDataStream :=
  let filter := "fk_table_name = '" ++ keys_table command ++ "'" in
  let filter :=
    match keys_catalog command with
    | Some c => filter ++ (" AND fk_catalog_name = '" ++ c ++ "'")
    | None => filter
    end in
  let filter :=
    match keys_schema command with
    | Some sc => filter ++ (" AND fk_schema_name = '" ++ sc ++ "'")
    | None => filter
    end in
  let query := PrepareQueryForGetImportedOrExportedKeys filter in
  DoGetSQLiteQuery query GetImportedAndExportedKeysSchema.

Definition DoGetExportedKeys (command : CommandGetKeys)
    : M FlightDataStream :=
  let filter := "pk_table_name = '" ++ keys_table command ++ "'" in
  let filter :=
    match keys_catalog command with
    | Some c => filter ++ (" AND pk_catalog_name = '" ++ c ++ "'")
    | None => filter
    end in
  let filter :=
    match keys_schema command with
    | Some sc => filter ++ (" AND pk_schema_name = '" ++ sc ++ "'")
    | None => filter
    end in
  let query := PrepareQueryForGetImportedOrExportedKeys filter in
  DoGetSQLiteQuery query GetImportedAndExportedKeysSchema.

End Metadata.

(** *** Prepared statements *)

Record ActionCreatePreparedStatementResult : Type := {
  dataset_schema : Schema;
  parameter_schema : Schema;
  prepared_statement_handle : string
}.

(** A [SimpleResultStream] over the results it was built from. *)
Inductive ResultStream (A : Type) : Type :=
| SimpleResultStream (results : list A).

Arguments SimpleResultStream {A} results.

(** What [GetFlightInfoForCommand] produces: the schema and, as the
    ticket, the command it was called with. *)
Record FlightInfo : Type := {
  info_schema : Schema;
  info_ticket : string
}.

(** The body of [for (int i = 0; i < parameter_count; i++)]. *)
Fixpoint parameter_fields_loop (stmt : SqliteStatement)
    (dense_union_type : DataType) (todo : nat) (i : Z)
    (parameter_fields : list Field) : list Field :=
  match todo with
  | O => parameter_fields
  | S todo' =>
      let parameter_name_chars := sqlite3_bind_parameter_name stmt (i + 1) in
      let parameter_name :=
        match parameter_name_chars with
        | None => "parameter_" ++ std_to_string (i + 1)
        | Some chars => chars
        end in
      parameter_fields_loop stmt dense_union_type todo' (i + 1)%Z
        (parameter_fields ++ [field parameter_name dense_union_type])
  end.

Section Create.
(** [GetUnknownColumnDataType()], the dense union standing for a
    parameter of unknown type; declared outside this file. *)
Variable GetUnknownColumnDataType : DataType.

(** Schemas are kept as they are instead of their IPC serialization. *)
Definition CreatePreparedStatement (query : string)
    : M (ResultStream ActionCreatePreparedStatementResult) :=
  statement <- SqliteStatement_Create query ;;
  uuid <- generate_uuid ;;
  srv <- get ;;
  _ <- put (with_prepared_statements
              (<[uuid := statement]> (prepared_statements_ srv)) srv) ;;
  dataset_schema <- GetSchema statement ;;
  let stmt := statement in
  let parameter_count := sqlite3_bind_parameter_count stmt in
  let dense_union_type := GetUnknownColumnDataType in
  let parameter_fields :=
    parameter_fields_loop stmt dense_union_type
      (Z.to_nat parameter_count) 0%Z [] in
  let parameter_schema := parameter_fields in
  let action_result :=
    {| dataset_schema := dataset_schema;
       parameter_schema := parameter_schema;
       prepared_statement_handle := to_string uuid |} in
  ret (SimpleResultStream [action_result]).
End Create.

Definition ClosePreparedStatement (prepared_statement_handle : string)
    : M (ResultStream unit) :=
  uuid <- lexical_cast_uuid prepared_statement_handle ;;
  srv <- get ;;
  _ <- match prepared_statements_ srv !! uuid with
       | Some _ =>
           put (with_prepared_statements
                  (delete uuid (prepared_statements_ srv)) srv)
       | None => fail (Status_Invalid "Prepared statement not found")
       end ;;
  ret (SimpleResultStream []).

Definition GetFlightInfoPreparedStatement (prepared_statement_handle : string)
    : M FlightInfo :=
  uuid <- lexical_cast_uuid prepared_statement_handle ;;
  srv <- get ;;
  match prepared_statements_ srv !! uuid with
  | None => fail (Status_Invalid "Prepared statement not found")
  | Some statement =>
      schema <- GetSchema statement ;;
      ret {| info_schema := schema;
             info_ticket := prepared_statement_handle |}
  end.

Definition DoGetPreparedStatement (prepared_statement_handle : string)
    : M FlightDataStream :=
  uuid <- lexical_cast_uuid prepared_statement_handle ;;
  srv <- get ;;
  match prepared_statements_ srv !! uuid with
  | None => fail (Status_Invalid "Prepared statement not found")
  | Some statement =>
      reader <- SqliteStatementBatchReader_Create statement ;;
      ret (RecordBatchStream reader)
  end.

(** *** Parameter binding *)

(** [static_cast<int>] of a size: reduction to 32 bits, two's
    complement. *)
Definition static_cast_int (z : Z) : Z :=
  ((z + 2 ^ 31) mod 2 ^ 32 - 2 ^ 31)%Z.

(** [std::string::c_str]: the bytes and the terminating NUL. *)
Definition c_str (s : list byte) : list byte := s ++ ["000"%byte].

Fixpoint strlen (value : list byte) : Z :=
  match value with
  | [] => 0
  | b :: value' =>
      if Byte.eqb b "000"%byte then 0 else (1 + strlen value')%Z
  end.

(** [Array::GetScalar] *)
Definition GetScalar (column : Array) (i : Z) : Status + Scalar :=
  match (if (0 <=? i)%Z then column !! Z.to_nat i else None) with
  | Some scalar => inr scalar
  | None => inl (Status_IndexError "index out of bounds")
  end.

(** The [switch (holder->type->id())] for the cell of column [c]; each
    case reads the holder as the scalar class of its type. *)
Definition bind_holder (stmt : SqliteStatement) (c : Z) (holder : Scalar)
    : option Status * SqliteStatement :=
  match type_id (scalar_type holder), holder with
  | INT64, Int64Scalar value =>
      (None, sqlite3_bind (sqlite3_bind_int64 (c + 1) value) stmt)
  | FLOAT, FloatScalar value =>
      let value := double_of_float value in
      (None, sqlite3_bind (sqlite3_bind_double (c + 1) value) stmt)
  | STRING, StringScalar buffer =>
      let string_ := buffer in
      let value := c_str string_ in
      (None, sqlite3_bind
               (sqlite3_bind_text (c + 1) value
                  (static_cast_int (strlen value)) SQLITE_TRANSIENT) stmt)
  | BINARY, BinaryScalar buffer =>
      (None, sqlite3_bind
               (sqlite3_bind_blob (c + 1) buffer
                  (static_cast_int (Z.of_nat (List.length buffer)))
                  SQLITE_TRANSIENT) stmt)
  | _, _ =>
      (Some (Status_Invalid ("Received unsupported data type: "
                             ++ ToString (scalar_type holder))), stmt)
  end.

(** [for (int c = 0; c < num_columns; ++c)] at row [i]. *)
Fixpoint columns_loop (record_batch : RecordBatch) (i : Z) (todo : nat)
    (c : Z) (stmt : SqliteStatement) : option Status * SqliteStatement :=
  match todo with
  | O => (None, stmt)
  | S todo' =>
      let column := nth (Z.to_nat c) (columns record_batch) [] in
      match GetScalar column i with
      | inl status => (Some status, stmt)
      | inr holder =>
          match bind_holder stmt c holder with
          | (Some status, stmt') => (Some status, stmt')
          | (None, stmt') =>
              columns_loop record_batch i todo' (c + 1)%Z stmt'
          end
      end
  end.

(** [for (int i = 0; i < num_rows; ++i)] *)
Fixpoint rows_loop (record_batch : RecordBatch) (todo : nat) (i : Z)
    (stmt : SqliteStatement) : option Status * SqliteStatement :=
  match todo with
  | O => (None, stmt)
  | S todo' =>
      match columns_loop record_batch i
              (Z.to_nat (num_columns record_batch)) 0%Z stmt with
      | (Some status, stmt') => (Some status, stmt')
      | (None, stmt') => rows_loop record_batch todo' (i + 1)%Z stmt'
      end
  end.

(** The [FlightMessageReader]: what each [Next] is going to deliver, a
    failure or a chunk with a batch; after the last one the chunk's
    data is null. *)
Definition FlightMessageReader : Type := list (Status + RecordBatch).

(** [while (true)] over the chunks. *)
Fixpoint chunks_loop (reader : FlightMessageReader) (stmt : SqliteStatement)
    : option Status * SqliteStatement :=
  match reader with
  | [] => (None, stmt)
  | inl status :: _ => (Some status, stmt)
  | inr record_batch :: reader' =>
      match rows_loop record_batch (Z.to_nat (num_rows record_batch)) 0%Z
              stmt with
      | (Some status, stmt') => (Some status, stmt')
      | (None, stmt') => chunks_loop reader' stmt'
      end
  end.

(** The statement is shared with the registry: the bind calls made
    before a failure stay on the registered statement. *)
Definition DoPutPreparedStatement (prepared_statement_handle : string)
    (reader : FlightMessageReader) : M unit :=
  uuid <- lexical_cast_uuid prepared_statement_handle ;;
  srv <- get ;;
  match prepared_statements_ srv !! uuid with
  | None => fail (Status_Invalid "Prepared statement not found")
  | Some statement =>
      let stmt := statement in
      let '(status, stmt') := chunks_loop reader stmt in
      _ <- put (with_prepared_statements
                  (<[uuid := stmt']> (prepared_statements_ srv)) srv) ;;
      match status with
      | Some s => fail s
      | None => ret tt
      end
  end.

(** *** Derived states, request sequences *)

(** The status of every failed lookup. *)
Definition not_found : Status :=
  Status_Invalid "Prepared statement not found".

(** The server after a successful creation that drew [u]. *)
Definition after_create (sql : string) (statement : SqliteStatement)
    (srv : SQLiteFlightSqlServer) : SQLiteFlightSqlServer :=
  {| db_ := {| sqlite3_prepare := sqlite3_prepare (db_ srv);
               prepared_texts := prepared_texts (db_ srv) ++ [sql] |};
     prepared_statements_ :=
       <[uuid_generator_ srv (uuid_draws srv) := statement]>
         (prepared_statements_ srv);
     uuid_generator_ := uuid_generator_ srv;
     uuid_draws := S (uuid_draws srv) |}.

(** The server once [u] is erased. *)
Definition after_close (u : uuid) (srv : SQLiteFlightSqlServer)
    : SQLiteFlightSqlServer :=
  with_prepared_statements (delete u (prepared_statements_ srv)) srv.

(** The parameter schema the specification describes: field number
    [position] (from 1) carries the placeholder's own name, or
    parameter_<position> when it has none. *)
Definition parameter_field (ty : DataType) (position : nat)
    (name : option string) : Field :=
  field (match name with
         | Some n => n
         | None => "parameter_" ++ std_to_string (Z.of_nat position)
         end) ty.

Fixpoint fields_from (ty : DataType) (position : nat)
    (names : list (option string)) : Schema :=
  match names with
  | [] => []
  | name :: names' =>
      parameter_field ty position name :: fields_from ty (S position) names'
  end.

(** The bytes of a buffer before its first NUL. *)
Fixpoint before_NUL (s : list byte) : list byte :=
  match s with
  | [] => []
  | b :: s' => if Byte.eqb b "000"%byte then [] else b :: before_NUL s'
  end.

(** The requests the server answers. *)
Inductive Request : Type :=
| CreatePrepared (query : string)
| ClosePrepared (handle : string)
| GetFlightInfoPrepared (handle : string)
| DoGetPrepared (handle : string)
| DoPutPrepared (handle : string) (reader : FlightMessageReader)
| GetCatalogs
| GetSchemas (command : CommandGetSchemas)
| GetTables (command : QueryBuilder.CommandGetTables)
| GetTableTypes
| GetImportedKeys (command : CommandGetKeys)
| GetExportedKeys (command : CommandGetKeys).

Section Serve.
Variables catalogs schemas tables table_types keys : Schema.
Variable unknown : DataType.

(** The server after one request, whatever the request handed back. *)
Definition serve (srv : SQLiteFlightSqlServer) (r : Request)
    : SQLiteFlightSqlServer :=
  match r with
  | CreatePrepared query => snd (CreatePreparedStatement unknown query srv)
  | ClosePrepared handle => snd (ClosePreparedStatement handle srv)
  | GetFlightInfoPrepared handle =>
      snd (GetFlightInfoPreparedStatement handle srv)
  | DoGetPrepared handle => snd (DoGetPreparedStatement handle srv)
  | DoPutPrepared handle reader =>
      snd (DoPutPreparedStatement handle reader srv)
  | GetCatalogs => snd (DoGetCatalogs catalogs srv)
  | GetSchemas command => snd (DoGetSchemas schemas command srv)
  | GetTables command => snd (DoGetTables tables command srv)
  | GetTableTypes => snd (DoGetTableTypes table_types srv)
  | GetImportedKeys command => snd (DoGetImportedKeys keys command srv)
  | GetExportedKeys command => snd (DoGetExportedKeys keys command srv)
  end.

Definition serve_all (srv : SQLiteFlightSqlServer) (rs : list Request)
    : SQLiteFlightSqlServer :=
  fold_left serve rs srv.
End Serve.

(** A uuid is retired when it is not registered and the generator is
    not going to return it. *)
Definition retired (u : uuid) (srv : SQLiteFlightSqlServer) : Prop :=
  prepared_statements_ srv !! u = None
  /\ forall n, (uuid_draws srv <= n)%nat -> uuid_generator_ srv n <> u.

(** *** Example servers, statements and batches *)

(** Two uuids, and the text of the first. *)
Definition nil_uuid : uuid := replicate 16 "000"%byte.

Definition other_uuid : uuid := replicate 16 "001"%byte.

Definition nil_handle : string := "00000000-0000-0000-0000-000000000000".

(** An engine that rejects every text. *)
Definition rejecting_engine : sqlite3 :=
  {| sqlite3_prepare := fun _ => inl (Status_Invalid "syntax error");
     prepared_texts := [] |}.

(** A server with nothing registered, the rejecting engine and a
    generator stuck on the nil uuid. *)
Definition empty_server : SQLiteFlightSqlServer :=
  {| db_ := rejecting_engine;
     prepared_statements_ := ∅;
     uuid_generator_ := fun _ => nil_uuid;
     uuid_draws := 0 |}.

(** The statement of the end-to-end example: four output columns, one
    numbered placeholder; and an engine that compiles this text only. *)
Definition example_sql : string := "SELECT * FROM intTable WHERE value = ?1".

Definition example_statement : SqliteStatement :=
  {| stmt_sql := example_sql;
     stmt_columns :=
       [ ("id", Some "INTEGER"); ("keyName", Some "varchar(100)");
         ("value", Some "int"); ("foreignId", Some "int") ];
     stmt_parameters := [ Some "?1" ];
     stmt_bound := [] |}.

Definition example_engine : sqlite3 :=
  {| sqlite3_prepare := fun sql =>
       if String.eqb sql example_sql then inr example_statement
       else inl (Status_Invalid "syntax error");
     prepared_texts := [] |}.

(** Nothing registered; the next uuid drawn is nil. *)
Definition fresh_server : SQLiteFlightSqlServer :=
  {| db_ := example_engine;
     prepared_statements_ := ∅;
     uuid_generator_ := fun _ => nil_uuid;
     uuid_draws := 0 |}.

(** The example statement registered under the nil uuid; the generator
    only returns another uuid. *)
Definition one_statement_server : SQLiteFlightSqlServer :=
  {| db_ := example_engine;
     prepared_statements_ := {[ nil_uuid := example_statement ]};
     uuid_generator_ := fun _ => other_uuid;
     uuid_draws := 0 |}.

(** The bytes of "a", NUL, "b". *)
Definition a_NUL_b : Buffer := [ "097"%byte; "000"%byte; "098"%byte ].

(** One row, one column, holding the double 1.5. *)
Definition double_batch : RecordBatch :=
  {| batch_schema := [ field "?1" float64 ];
     num_rows := 1;
     columns := [ [ DoubleScalar (double_bits 4609434218613702656) ] ] |}.

(** Two rows of an integer, a string, a blob and a 32-bit float. *)
Definition mixed_batch : RecordBatch :=
  {| batch_schema := [];
     num_rows := 2;
     columns :=
       [ [ Int64Scalar 1; Int64Scalar 2 ];
         [ StringScalar [ "097"%byte; "098"%byte; "099"%byte ];
           StringScalar [] ];
         [ BinaryScalar [ "000"%byte; "255"%byte ]; BinaryScalar [] ];
         [ FloatScalar (float_bits 1069547520);
           FloatScalar (float_bits 0) ] ] |}.

End Server.

(** ** Ad hoc statements and primary keys *)

Module Statements.
Import Uuid TypeMapper QueryBuilder KeysQuery Server.

(** [pb::sql::TicketStatementQuery] *)
Record TicketStatementQuery : Type := { statement_handle : string }.

(** The [FlightInfo] of an ad hoc query: the schema and, inside the one
    endpoint, the packed ticket. *)
Record StatementFlightInfo : Type := {
  statement_info_schema : Schema;
  statement_info_ticket : TicketStatementQuery
}.

Definition GetFlightInfoStatement (query : string) : M StatementFlightInfo :=
  statement <- SqliteStatement_Create query ;;
  schema <- GetSchema statement ;;
  let ticket_statement_query := {| statement_handle := query |} in
  ret {| statement_info_schema := schema;
         statement_info_ticket := ticket_statement_query |}.

Definition DoGetStatement (command : TicketStatementQuery)
    : M FlightDataStream :=
  let sql := statement_handle command in
  statement <- SqliteStatement_Create sql ;;
  reader <- SqliteStatementBatchReader_Create statement ;;
  ret (RecordBatchStream reader).

(** [CommandGetPrimaryKeys] has the three fields of the key commands. *)
Definition DoGetPrimaryKeys (GetPrimaryKeysSchema : Schema)
    (command : CommandGetKeys) : M FlightDataStream :=
  let table_query :=
    "SELECT null as catalog_name, null as schema_name, table_name, "
    ++ "name as column_name,  pk as key_sequence, null as key_name" ++ nl
    ++ "FROM pragma_table_info(table_name)" ++ nl
    ++ "    JOIN (SELECT null as catalog_name, null as schema_name, name as "
    ++ "table_name, type as table_type" ++ nl
    ++ "FROM sqlite_master) where 1=1 and pk != 0" in
  let table_query :=
    match keys_catalog command with
    | Some c => table_query ++ " and catalog_name LIKE '" ++ c ++ "'"
    | None => table_query
    end in
  let table_query :=
    match keys_schema command with
    | Some sc => table_query ++ " and schema_name LIKE '" ++ sc ++ "'"
    | None => table_query
    end in
  let table_query :=
    table_query ++ " and table_name LIKE '" ++ keys_table command ++ "'" in
  DoGetSQLiteQuery table_query GetPrimaryKeysSchema.

(** The fixed part of the primary keys text. *)
Definition primary_keys_select : string :=
  "SELECT null as catalog_name, null as schema_name, table_name, name as column_name,  pk as key_sequence, null as key_name"
  ++ nl ++ "FROM pragma_table_info(table_name)"
  ++ nl ++ "    JOIN (SELECT null as catalog_name, null as schema_name, name as table_name, type as table_type"
  ++ nl ++ "FROM sqlite_master) where 1=1 and pk != 0".

(** *** The filter of the key commands as conditions

    The filter text of [DoGetImportedKeys] and [DoGetExportedKeys] is a
    conjunction of comparisons of a result column with a quoted
    literal. *)





(** The placeholders written in a text that holds no string literal and
    no comment: one for each [?], [:], [@] or [$]. *)
Fixpoint count_placeholders (sql : string) : nat :=
  match sql with
  | EmptyString => O
  | String c sql' =>
      ((if Ascii.eqb c "?" || Ascii.eqb c ":" || Ascii.eqb c "@"
           || Ascii.eqb c "$" then 1 else 0)
       + count_placeholders sql')%nat
  end.

(** A text with three placeholders, the last of them numbered 12, and
    the statement the engine compiles it to: the engine counts
    parameters up to the largest index, and only the parameters written
    with a name or a number have a name. *)
Definition numbered_sql : string := "SELECT ?, :a, ?12".

Definition numbered_statement : SqliteStatement :=
  {| stmt_sql := numbered_sql;
     stmt_columns := [ ("?", None); (":a", None); ("?12", None) ];
     stmt_parameters :=
       [ None; Some ":a"; None; None; None; None; None; None; None; None;
         None; Some "?12" ];
     stmt_bound := [] |}.

Definition numbering_server : SQLiteFlightSqlServer :=
  {| db_ := {| sqlite3_prepare := fun sql =>
                 if String.eqb sql numbered_sql then inr numbered_statement
                 else inl (Status_Invalid "syntax error");
               prepared_texts := [] |};
     prepared_statements_ := ∅;
     uuid_generator_ := fun _ => nil_uuid;
     uuid_draws := 0 |}.

(** The requests that are neither Create, nor Close, nor a bind. *)
Definition leaves_registry (r : Request) : Prop :=
  match r with
  | CreatePrepared _ | ClosePrepared _ | DoPutPrepared _ _ => False
  | _ => True
  end.

(** Imported keys of [intTable], in the catalog main or in any. *)
Definition keys_of_intTable (cat : option string) : CommandGetKeys :=
  {| keys_catalog := cat; keys_schema := None; keys_table := "intTable" |}.

(** A statement registered under the uuid the generator is about to
    return. *)
Definition old_statement : SqliteStatement :=
  {| stmt_sql := "SELECT 1";
     stmt_columns := [ ("1", None) ];
     stmt_parameters := [];
     stmt_bound := [] |}.

Definition colliding_server : SQLiteFlightSqlServer :=
  {| db_ := example_engine;
     prepared_statements_ := {[ nil_uuid := old_statement ]};
     uuid_generator_ := fun _ => nil_uuid;
     uuid_draws := 0 |}.

End Statements.

(** ** The cells a parameter stream delivers *)

Module Cells.
Import Uuid Server.

(** The types the binder has a case for. *)
Definition supported (holder : Scalar) : bool :=
  match holder with
  | Int64Scalar _ | FloatScalar _ | StringScalar _ | BinaryScalar _ => true
  | _ => false
  end.

(** A value whose size fits the [int] of the bind calls. *)
Definition fits_int (holder : Scalar) : Prop :=
  match holder with
  | StringScalar buffer | BinaryScalar buffer =>
      (Z.of_nat (List.length buffer) < 2 ^ 31)%Z
  | _ => True
  end.

(** The bind call expected for a supported cell of column [c]. *)
Definition call_of (cell : Z * Scalar) : list BindCall :=
  let '(c, holder) := cell in
  match holder with
  | Int64Scalar value => [ sqlite3_bind_int64 (c + 1) value ]
  | FloatScalar value =>
      [ sqlite3_bind_double (c + 1) (double_of_float value) ]
  | StringScalar buffer =>
      [ sqlite3_bind_text (c + 1) (c_str buffer)
          (Z.of_nat (List.length (before_NUL buffer))) SQLITE_TRANSIENT ]
  | BinaryScalar buffer =>
      [ sqlite3_bind_blob (c + 1) buffer (Z.of_nat (List.length buffer))
          SQLITE_TRANSIENT ]
  | _ => []
  end.

(** The cells of row [i] from column [c] on, with their column. *)
Fixpoint cells_from (c : Z) (cols : list Array) (i : nat)
    : list (Z * Scalar) :=
  match cols with
  | [] => []
  | col :: cols' =>
      match col !! i with
      | Some holder => (c, holder) :: cells_from (c + 1) cols' i
      | None => []
      end
  end.

(** The cells of a batch row by row, of a stream batch by batch. *)
Definition batch_cells (b : RecordBatch) : list (Z * Scalar) :=
  flat_map (cells_from 0 (columns b)) (seq 0 (Z.to_nat (num_rows b))).

Definition stream_cells (batches : list RecordBatch) : list (Z * Scalar) :=
  flat_map batch_cells batches.

(** Every column of the batch has a cell for each of its rows. *)
Definition rectangular (b : RecordBatch) : Prop :=
  Forall (fun col => (Z.to_nat (num_rows b) <= List.length col)%nat)
    (columns b).

(** The statement with further bind calls made on it. *)
Definition with_calls (calls : list BindCall) (stmt : SqliteStatement)
    : SqliteStatement :=
  {| stmt_sql := stmt_sql stmt;
     stmt_columns := stmt_columns stmt;
     stmt_parameters := stmt_parameters stmt;
     stmt_bound := stmt_bound stmt ++ calls |}.

(** Binding a list of cells one after the other, up to the first
    refusal. *)
Fixpoint bind_cells (cells : list (Z * Scalar)) (stmt : SqliteStatement)
    : option Status * SqliteStatement :=
  match cells with
  | [] => (None, stmt)
  | (c, holder) :: cells' =>
      match bind_holder stmt c holder with
      | (Some status, stmt') => (Some status, stmt')
      | (None, stmt') => bind_cells cells' stmt'
      end
  end.

(** A cell the binder takes. *)
Definition bindable (cell : Z * Scalar) : Prop :=
  supported (snd cell) = true /\ fits_int (snd cell).

(** The 1-based index of a bind call. *)
Definition call_index (call : BindCall) : Z :=
  match call with
  | sqlite3_bind_int64 index _ | sqlite3_bind_double index _
  | sqlite3_bind_text index _ _ _ | sqlite3_bind_blob index _ _ _ => index
  end.

(** [stmt'] is [stmt] with further bind calls, all at an index from 1
    on; text, columns and parameters are the same. *)
Definition extends (stmt stmt' : SqliteStatement) : Prop :=
  exists calls,
    stmt' = with_calls calls stmt
    /\ Forall (fun call => (1 <= call_index call)%Z) calls.

(** A stream of two batches of two columns, the second batch holding a
    boolean in its second row. *)
Definition two_batches : list RecordBatch :=
  [ {| batch_schema := []; num_rows := 1;
       columns := [ [ Int64Scalar 7 ]; [ StringScalar [ "120"%byte ] ] ] |};
    {| batch_schema := []; num_rows := 2;
       columns := [ [ Int64Scalar 8; Int64Scalar 9 ];
                    [ BinaryScalar []; BooleanScalar true ] ] |} ].

End Cells.

(** * Properties *)

(** ** Type mapper *)

Module TypeMapperFacts.
Import TypeMapper.

Ltac by_cases_on_ascii c :=
  destruct c as [[] [] [] [] [] [] [] []]; reflexivity.

Lemma tolower_toupper (c : ascii) : tolower (toupper c) = tolower c.
Proof. by_cases_on_ascii c. Qed.

Lemma toupper_tolower (c : ascii) : toupper (tolower c) = toupper c.
Proof. by_cases_on_ascii c. Qed.

(** Comparing upper-cased characters is comparing lower-cased ones. *)
Lemma is_iequal_tolower (a b : ascii) :
  is_iequal a b = Ascii.eqb (tolower a) (tolower b).
Proof.
  unfold is_iequal.
  destruct (Ascii.eqb_spec (toupper a) (toupper b)) as [Hu | Hu];
    destruct (Ascii.eqb_spec (tolower a) (tolower b)) as [Hl | Hl];
    try reflexivity; exfalso.
  - apply Hl. rewrite <- (tolower_toupper a), <- (tolower_toupper b).
    now rewrite Hu.
  - apply Hu. rewrite <- (toupper_tolower a), <- (toupper_tolower b).
    now rewrite Hl.
Qed.

Lemma iequals_lowercase (s t : string) :
  iequals s t = String.eqb (lowercase s) (lowercase t).
Proof.
  revert t; induction s as [| a s IH]; intros [| b t]; simpl; try reflexivity.
  rewrite is_iequal_tolower, IH.
  destruct (Ascii.eqb (tolower a) (tolower b)); reflexivity.
Qed.

Lemma istarts_with_lowercase (s t : string) :
  istarts_with s t = String.prefix (lowercase t) (lowercase s).
Proof.
  revert s; induction t as [| b t IH]; intros [| a s]; simpl;
    try reflexivity.
  rewrite is_iequal_tolower, IH.
  destruct (Ascii.eqb_spec (tolower a) (tolower b)) as [E | E];
    destruct (ascii_dec (tolower b) (tolower a)); congruence.
Qed.

(** C5.  [GetArrowType] is a total function of the optional type name
    that follows the rules of the specification, whatever the case of
    the letters: absent gives null; int and integer give int64; real
    gives float64; blob gives binary; text and every name beginning
    with char or varchar give utf8; anything else gives null.  The
    examples of the specification hold. *)
Theorem GetArrowType_follows_rules :
  (forall name : option string, GetArrowType name = Map_rules name)
  /\ GetArrowType None = null
  /\ GetArrowType (Some "INTEGER") = int64
  /\ GetArrowType (Some "int") = int64
  /\ GetArrowType (Some "Real") = float64
  /\ GetArrowType (Some "bLOB") = binary
  /\ GetArrowType (Some "text") = utf8
  /\ GetArrowType (Some "varchar(100)") = utf8
  /\ GetArrowType (Some "CHARACTER(20)") = utf8
  /\ GetArrowType (Some "unknown_xyz") = null.
Proof.
  split; [| repeat split; reflexivity].
  intros [n |]; [| reflexivity].
  unfold GetArrowType, Map_rules.
  rewrite !iequals_lowercase, !istarts_with_lowercase.
  reflexivity.
Qed.

End TypeMapperFacts.

(** ** Strings *)

Lemma append_cons (x : ascii) (a b : string) :
  String x a ++ b = String x (a ++ b).
Proof. reflexivity. Qed.

Lemma append_assoc (a b c : string) : (a ++ b) ++ c = a ++ (b ++ c).
Proof.
  induction a as [| x a IH]; [reflexivity |].
  now rewrite !append_cons, IH.
Qed.

Lemma append_nil_r (a : string) : a ++ "" = a.
Proof.
  induction a as [| x a IH]; [reflexivity |].
  now rewrite append_cons, IH.
Qed.

(** ** GetTables query text *)

Module GetTablesFacts.
Import QueryBuilder.

(** The loop over the requested types prints them quoted and separated
    by commas: after the types [done], the rest is still to print. *)
Lemma table_types_loop_joins (rest done : list string) (q : string) :
  rest <> [] ->
  table_types_loop (done ++ rest) (Z.of_nat (List.length (done ++ rest)))
    (List.length rest) (Z.of_nat (List.length done)) q
  = q ++ String.concat "," (map quoted rest).
Proof.
  revert done q; induction rest as [| t rest IH]; intros done q Hne;
    [congruence |].
  cbn [table_types_loop List.length].
  rewrite Nat2Z.id, app_nth2, Nat.sub_diag by lia. cbn [nth].
  destruct rest as [| t' rest].
  - assert ((Z.of_nat (List.length (done ++ [t])) - 1 =? Z.of_nat (List.length done))%Z
            = true) as ->.
    { apply Z.eqb_eq. rewrite List.length_app. cbn. lia. }
    reflexivity.
  - assert ((Z.of_nat (List.length (done ++ t :: t' :: rest)) - 1
               =? Z.of_nat (List.length done))%Z = false) as ->.
    { apply Z.eqb_neq. rewrite List.length_app. cbn [List.length]. lia. }
    cbn [negb].
    specialize (IH (done ++ [t])%list ((q ++ "'" ++ t ++ "'") ++ ",")).
    rewrite <- app_assoc in IH. cbn [app] in IH.
    rewrite !List.length_app in IH. rewrite !List.length_app.
    cbn [List.length] in IH |- *.
    replace (Z.of_nat (List.length done) + 1)%Z
      with (Z.of_nat (List.length done + 1)) by lia.
    rewrite IH by congruence.
    change (map quoted (t :: t' :: rest))
      with (quoted t :: map quoted (t' :: rest)).
    change (String.concat "," (quoted t :: map quoted (t' :: rest)))
      with (quoted t ++ "," ++ String.concat "," (map quoted (t' :: rest))).
    unfold quoted at 2. now rewrite !append_assoc.
Qed.

Lemma PrepareQueryForGetTables_closed_form (command : CommandGetTables) :
  PrepareQueryForGetTables command = GetTables_text command.
Proof.
  unfold PrepareQueryForGetTables, GetTables_text, optional_clause,
    table_types_clause.
  destruct command as [cat sch tab types incl]; cbn [catalog
    schema_filter_pattern table_name_filter_pattern table_types].
  destruct types as [| t types].
  - destruct cat, sch, tab; rewrite ?append_assoc; reflexivity.
  - pose proof (table_types_loop_joins (t :: types) []) as L.
    cbn [app List.length Z.of_nat] in L. rewrite L by congruence.
    destruct cat, sch, tab; rewrite ?append_assoc; reflexivity.
Qed.

(** C6.  The GetTables text is the fixed selection followed by: the
    catalog equality exactly when a catalog is present, the two LIKE
    filters exactly when their patterns are present, the IN list of the
    quoted table types exactly when some are requested; it always ends
    in the ordering by table name.  For catalog c and the types table
    and view it contains the two expected conditions. *)
Theorem PrepareQueryForGetTables_clauses :
  (forall command, PrepareQueryForGetTables command = GetTables_text command)
  /\ (forall command,
        ends_in (PrepareQueryForGetTables command) " order by table_name")
  /\ (forall sch tab incl,
        let q := PrepareQueryForGetTables
                   {| catalog := Some "c";
                      schema_filter_pattern := sch;
                      table_name_filter_pattern := tab;
                      table_types := ["table"; "view"];
                      include_schema := incl |} in
        occurs_in "catalog_name='c'" q
        /\ occurs_in "table_type IN ('table','view')" q).
Proof.
  split; [exact PrepareQueryForGetTables_closed_form |].
  split.
  - intros command. rewrite PrepareQueryForGetTables_closed_form.
    unfold GetTables_text, ends_in. eexists.
    rewrite <- !append_assoc. reflexivity.
  - intros sch tab incl q. subst q.
    rewrite PrepareQueryForGetTables_closed_form.
    unfold GetTables_text, occurs_in, optional_clause, table_types_clause.
    cbn [catalog schema_filter_pattern table_name_filter_pattern
         table_types].
    split.
    + exists "SELECT null as catalog_name, null as schema_name, name as table_name, type as table_type FROM sqlite_master where 1=1 and ".
      eexists. reflexivity.
    + eexists
        ("SELECT null as catalog_name, null as schema_name, name as table_name, type as table_type FROM sqlite_master where 1=1 and catalog_name='c'"
         ++ match sch with Some v => " and schema_name LIKE '" ++ v ++ "'" | None => "" end
         ++ match tab with Some v => " and table_name LIKE '" ++ v ++ "'" | None => "" end
         ++ " and ").
      exists " order by table_name".
      destruct sch, tab; rewrite ?append_assoc; reflexivity.
Qed.

End GetTablesFacts.

(** ** Imported and exported keys *)

Module KeysQueryFacts.
Import QueryBuilder KeysQuery Server.



End KeysQueryFacts.

(** ** Handle text *)

Module UuidFacts.
Import Uuid.

(** Reading back the two digits printed for a byte gives the byte. *)
Lemma xdigit_hi (b : byte) : xdigit (to_char (hi_nibble b)) = Some (hi_nibble b).
Proof. destruct b; reflexivity. Qed.

Lemma xdigit_lo (b : byte) : xdigit (to_char (lo_nibble b)) = Some (lo_nibble b).
Proof. destruct b; reflexivity. Qed.

Lemma make_byte_nibbles (b : byte) : make_byte (hi_nibble b) (lo_nibble b) = b.
Proof. destruct b; reflexivity. Qed.

Lemma read_bytes_to_string_from (data : list byte) (i : nat) (rest : string) :
  read_bytes (List.length data) i (to_string_from i data ++ rest)
  = Some (data, rest).
Proof.
  revert i; induction data as [| b data IH]; intros i; [reflexivity |].
  cbn [List.length to_string_from read_bytes].
  fold (hi_nibble b) (lo_nibble b).
  rewrite !append_cons, xdigit_hi, xdigit_lo. cbn [mbind option_bind].
  destruct (dash_after i).
  - rewrite append_assoc, append_cons. cbn [Ascii.eqb Bool.eqb mbind option_bind].
    change ("" ++ (to_string_from (S i) data ++ rest))
      with (to_string_from (S i) data ++ rest).
    rewrite IH. cbn. now rewrite make_byte_nibbles.
  - change (("" ++ to_string_from (S i) data) ++ rest)
      with (to_string_from (S i) data ++ rest).
    cbn [mbind option_bind]. rewrite IH. cbn. now rewrite make_byte_nibbles.
Qed.

(** The text of a uuid casts back to it. *)
Lemma lexical_cast_to_string (u : uuid) :
  well_formed u -> lexical_cast (to_string u) = Some u.
Proof.
  intros Hu. unfold lexical_cast, to_string.
  rewrite <- (append_nil_r (to_string_from 0 u)).
  unfold well_formed in Hu. rewrite <- Hu.
  now rewrite read_bytes_to_string_from.
Qed.

(** Whatever casts to a uuid casts to a well-formed one. *)
Lemma read_bytes_length todo i input data rest :
  read_bytes todo i input = Some (data, rest) -> List.length data = todo.
Proof.
  revert i input data rest; induction todo as [| todo IH];
    intros i input data rest; cbn [read_bytes].
  - intros [= <- _]. reflexivity.
  - destruct input as [| c1 [| c2 input]]; try discriminate.
    destruct (xdigit c1); [| discriminate].
    destruct (xdigit c2); [| discriminate]. cbn [mbind option_bind].
    destruct (if dash_after i then _ else _) as [input'' |];
      [| discriminate]. cbn [mbind option_bind].
    destruct (read_bytes todo (S i) input'') as [[d r] |] eqn:E;
      [| discriminate]. cbn.
    intros [= <- _]. cbn. f_equal. eapply IH, E.
Qed.

Lemma lexical_cast_well_formed text u :
  lexical_cast text = Some u -> well_formed u.
Proof.
  unfold lexical_cast.
  destruct (read_bytes 16 0 text) as [[d [| ? ?]] |] eqn:E; try discriminate.
  intros [= <-]. eapply read_bytes_length, E.
Qed.

End UuidFacts.

(** ** Prepared statement registry *)

Module RegistryFacts.
Import Uuid UuidFacts TypeMapper Server.

Ltac run :=
  unfold ClosePreparedStatement, GetFlightInfoPreparedStatement,
    DoGetPreparedStatement, DoPutPreparedStatement,
    SqliteStatementBatchReader_Create, GetSchema, lexical_cast_uuid,
    bind, get, put, ret, fail, throw.

Section Lookup.
Variables (srv : SQLiteFlightSqlServer) (handle : string).

(** A text that is not a uuid: the cast throws in every handler. *)
Lemma malformed_handle_throws (reader : FlightMessageReader) :
  lexical_cast handle = None ->
  ClosePreparedStatement handle srv = (Thrown bad_lexical_cast, srv)
  /\ GetFlightInfoPreparedStatement handle srv = (Thrown bad_lexical_cast, srv)
  /\ DoGetPreparedStatement handle srv = (Thrown bad_lexical_cast, srv)
  /\ DoPutPreparedStatement handle reader srv = (Thrown bad_lexical_cast, srv).
Proof. intros E. run. rewrite E. repeat split. Qed.

(** A uuid the registry does not know: every handler returns the
    same status and leaves the server as it was. *)
Lemma unknown_handle_fails (u : uuid) (reader : FlightMessageReader) :
  lexical_cast handle = Some u ->
  prepared_statements_ srv !! u = None ->
  ClosePreparedStatement handle srv = (Failed not_found, srv)
  /\ GetFlightInfoPreparedStatement handle srv = (Failed not_found, srv)
  /\ DoGetPreparedStatement handle srv = (Failed not_found, srv)
  /\ DoPutPreparedStatement handle reader srv = (Failed not_found, srv).
Proof. intros E L. run. rewrite E. cbn. rewrite L. repeat split. Qed.

(** A registered uuid: the lookups reach its statement. *)
Lemma known_handle_resolves (u : uuid) (statement : SqliteStatement) :
  lexical_cast handle = Some u ->
  prepared_statements_ srv !! u = Some statement ->
  GetFlightInfoPreparedStatement handle srv
  = (Done {| info_schema :=
               map (fun col => field (fst col) (GetArrowType (snd col)))
                   (stmt_columns statement);
             info_ticket := handle |}, srv)
  /\ DoGetPreparedStatement handle srv
     = (Done (RecordBatchStream
                (SqliteStatementBatchReader statement
                   (map (fun col => field (fst col) (GetArrowType (snd col)))
                        (stmt_columns statement)))), srv).
Proof. intros E L. run. rewrite E. cbn. rewrite L. split; reflexivity. Qed.

Lemma close_known_handle (u : uuid) (statement : SqliteStatement) :
  lexical_cast handle = Some u ->
  prepared_statements_ srv !! u = Some statement ->
  ClosePreparedStatement handle srv
  = (Done (SimpleResultStream []),
     with_prepared_statements (delete u (prepared_statements_ srv)) srv).
Proof. intros E L. run. rewrite E. cbn. rewrite L. reflexivity. Qed.
End Lookup.

Lemma nil_handle_cast : lexical_cast nil_handle = Some nil_uuid.
Proof. reflexivity. Qed.

(** C2 (as amended).  When the handle of a prepared-statement command
    is the text of a uuid the registry does not hold, each of the four
    handlers returns, as its result, the status Invalid with the
    message "Prepared statement not found", and the server is left
    unchanged; this status is of class InvalidArgument. *)
Theorem unknown_handle_returns_Invalid
    (srv : SQLiteFlightSqlServer) (handle : string) (u : uuid)
    (reader : FlightMessageReader) :
  lexical_cast handle = Some u ->
  prepared_statements_ srv !! u = None ->
  ClosePreparedStatement handle srv = (Failed not_found, srv)
  /\ GetFlightInfoPreparedStatement handle srv = (Failed not_found, srv)
  /\ DoGetPreparedStatement handle srv = (Failed not_found, srv)
  /\ DoPutPreparedStatement handle reader srv = (Failed not_found, srv)
  /\ code not_found = Invalid
  /\ message not_found = "Prepared statement not found"
  /\ has_class InvalidArgument not_found.
Proof.
  intros E L.
  destruct (unknown_handle_fails srv handle u reader E L) as (A & B & C & D).
  repeat split; assumption.
Qed.

Lemma unknown_handle_returns_Invalid_witness :
  lexical_cast nil_handle = Some nil_uuid
  /\ prepared_statements_ empty_server !! nil_uuid = None
  /\ DoGetPreparedStatement nil_handle empty_server
     = (Failed not_found, empty_server).
Proof.
  split; [reflexivity |]. split; [reflexivity |].
  apply (unknown_handle_returns_Invalid empty_server nil_handle nil_uuid []);
    reflexivity.
Defined.

(** C2 fails as stated: a handle that is not the text of a uuid makes
    the handler throw instead of returning, and the status returned for
    an unknown uuid is not of class NotFound. *)
Lemma resolve_failure_not_NotFound :
  lexical_cast "not-a-uuid" = None
  /\ DoGetPreparedStatement "not-a-uuid" empty_server
     = (Thrown bad_lexical_cast, empty_server)
  /\ ClosePreparedStatement "not-a-uuid" empty_server
     = (Thrown bad_lexical_cast, empty_server)
  /\ DoGetPreparedStatement nil_handle empty_server
     = (Failed not_found, empty_server)
  /\ ~ has_class NotFound not_found.
Proof.
  split; [reflexivity |].
  destruct (malformed_handle_throws empty_server "not-a-uuid" [] eq_refl)
    as (A & _ & C & _).
  destruct (unknown_handle_fails empty_server nil_handle nil_uuid []
              nil_handle_cast eq_refl) as (_ & _ & C' & _).
  repeat split; try assumption.
  cbn. discriminate.
Qed.

(** *** Creation *)

Lemma parameter_fields_loop_fields (stmt : SqliteStatement) (ty : DataType)
    (rest done : list (option string)) (acc : list Field) :
  stmt_parameters stmt = (done ++ rest)%list ->
  parameter_fields_loop stmt ty (List.length rest)
    (Z.of_nat (List.length done)) acc
  = (acc ++ fields_from ty (S (List.length done)) rest)%list.
Proof.
  revert done acc; induction rest as [| name rest IH]; intros done acc E.
  - cbn. now rewrite app_nil_r.
  - cbn [List.length parameter_fields_loop fields_from].
    assert (sqlite3_bind_parameter_name stmt (Z.of_nat (List.length done) + 1)
            = name) as ->.
    { unfold sqlite3_bind_parameter_name.
      destruct (Z.leb_spec 1 (Z.of_nat (List.length done) + 1)); [| lia].
      replace (Z.to_nat (Z.of_nat (List.length done) + 1 - 1))
        with (List.length done) by lia.
      rewrite E, list_lookup_middle by reflexivity. reflexivity. }
    replace (Z.of_nat (List.length done) + 1)%Z
      with (Z.of_nat (List.length (done ++ [name]))).
    2: { rewrite List.length_app. cbn. lia. }
    rewrite IH.
    + rewrite List.length_app. cbn [List.length].
      rewrite <- app_assoc. cbn [app]. unfold parameter_field.
      replace (List.length done + 1)%nat with (S (List.length done)) by lia.
      reflexivity.
    + rewrite <- app_assoc. exact E.
Qed.

Lemma fields_from_length ty position names :
  List.length (fields_from ty position names) = List.length names.
Proof.
  revert position; induction names as [| n names IH]; intros position;
    cbn; [reflexivity |]. now rewrite IH.
Qed.

Lemma fields_from_lookup ty position names (k : nat) :
  fields_from ty position names !! k
  = parameter_field ty (position + k) <$> names !! k.
Proof.
  revert position k; induction names as [| n names IH]; intros position k;
    [reflexivity |].
  destruct k as [| k]; cbn.
  - now rewrite Nat.add_0_r.
  - rewrite IH. now rewrite Nat.add_succ_r.
Qed.

Lemma fields_from_names :
  map field_name (fields_from utf8 1 [ None; Some ":name"; None; Some "?4" ])
  = [ "parameter_1"; ":name"; "parameter_3"; "?4" ].
Proof. reflexivity. Qed.

Lemma fields_from_types ty position names :
  Forall (fun f => field_type f = ty) (fields_from ty position names).
Proof.
  revert position; induction names as [| n names IH]; intros position;
    cbn; constructor; [reflexivity | apply IH].
Qed.

Lemma create_accepted (ty : DataType) (sql : string)
    (srv : SQLiteFlightSqlServer) (statement : SqliteStatement) :
  sqlite3_prepare (db_ srv) sql = inr statement ->
  CreatePreparedStatement ty sql srv
  = (Done (SimpleResultStream
             [ {| dataset_schema :=
                    map (fun col => field (fst col) (GetArrowType (snd col)))
                        (stmt_columns statement);
                  parameter_schema :=
                    fields_from ty 1 (stmt_parameters statement);
                  prepared_statement_handle :=
                    to_string (uuid_generator_ srv (uuid_draws srv)) |} ]),
     after_create sql statement srv).
Proof.
  intros E.
  unfold CreatePreparedStatement, SqliteStatement_Create, generate_uuid,
    GetSchema, bind, get, put, ret.
  rewrite E. cbn.
  unfold sqlite3_bind_parameter_count. rewrite Nat2Z.id.
  pose proof (parameter_fields_loop_fields statement ty
                (stmt_parameters statement) [] [] eq_refl) as L.
  change (Z.of_nat (List.length (@nil (option string)))) with 0%Z in L.
  cbn [app List.length] in L. rewrite L. reflexivity.
Qed.

Lemma create_rejected (ty : DataType) (sql : string)
    (srv : SQLiteFlightSqlServer) (status : Status) :
  sqlite3_prepare (db_ srv) sql = inl status ->
  CreatePreparedStatement ty sql srv
  = (Failed status,
     with_db {| sqlite3_prepare := sqlite3_prepare (db_ srv);
                prepared_texts := prepared_texts (db_ srv) ++ [sql] |} srv).
Proof.
  intros E.
  unfold CreatePreparedStatement, SqliteStatement_Create, bind.
  rewrite E. reflexivity.
Qed.

(** *** Sequences of requests *)

Section ServeFacts.
Variables catalogs schemas tables table_types keys : Schema.
Variable unknown : DataType.

Lemma query_keeps_registry (query : string) (schema : Schema)
    (srv : SQLiteFlightSqlServer) (u : uuid) :
  retired u srv -> retired u (snd (DoGetSQLiteQuery query schema srv)).
Proof.
  intros H. unfold DoGetSQLiteQuery, SqliteStatement_Create,
    SqliteStatementBatchReader_Create_with, bind, ret.
  destruct (sqlite3_prepare (db_ srv) query); exact H.
Qed.

Lemma serve_retired (u : uuid) (srv : SQLiteFlightSqlServer) (r : Request) :
  retired u srv ->
  retired u (serve catalogs schemas tables table_types keys unknown srv r).
Proof.
  intros [Hreg Hgen]. destruct r as [query | handle | handle | handle
    | handle reader | | command | command | | command | command];
    cbn [serve].
  - destruct (sqlite3_prepare (db_ srv) query) as [status | statement] eqn:E.
    + rewrite (create_rejected _ _ _ _ E). now split.
    + rewrite (create_accepted _ _ _ _ E). split; cbn.
      * rewrite lookup_insert_ne; [exact Hreg | now apply Hgen].
      * intros n Hn. apply Hgen. lia.
  - destruct (lexical_cast handle) as [u' |] eqn:E.
    + destruct (prepared_statements_ srv !! u') as [st |] eqn:L.
      * rewrite (close_known_handle _ _ _ _ E L). split; [| exact Hgen].
        cbn. destruct (decide (u' = u)) as [-> | Hne].
        -- apply lookup_delete_eq.
        -- now rewrite lookup_delete_ne.
      * destruct (unknown_handle_fails srv handle u' [] E L) as (-> & _).
        now split.
    + destruct (malformed_handle_throws srv handle [] E) as (-> & _).
      now split.
  - destruct (lexical_cast handle) as [u' |] eqn:E.
    + destruct (prepared_statements_ srv !! u') as [st |] eqn:L.
      * destruct (known_handle_resolves srv handle u' st E L) as (-> & _).
        now split.
      * destruct (unknown_handle_fails srv handle u' [] E L)
          as (_ & -> & _).
        now split.
    + destruct (malformed_handle_throws srv handle [] E) as (_ & -> & _).
      now split.
  - destruct (lexical_cast handle) as [u' |] eqn:E.
    + destruct (prepared_statements_ srv !! u') as [st |] eqn:L.
      * destruct (known_handle_resolves srv handle u' st E L) as (_ & ->).
        now split.
      * destruct (unknown_handle_fails srv handle u' [] E L)
          as (_ & _ & -> & _).
        now split.
    + destruct (malformed_handle_throws srv handle [] E)
        as (_ & _ & -> & _).
      now split.
  - destruct (lexical_cast handle) as [u' |] eqn:E.
    + destruct (prepared_statements_ srv !! u') as [st |] eqn:L.
      * run. rewrite E. cbn. rewrite L.
        destruct (chunks_loop reader st) as [[status |] st'];
          unfold retired; cbn; (split; [| exact Hgen]);
          (rewrite lookup_insert_ne; [exact Hreg | congruence]).
      * destruct (unknown_handle_fails srv handle u' reader E L)
          as (_ & _ & _ & ->).
        now split.
    + destruct (malformed_handle_throws srv handle reader E)
        as (_ & _ & _ & ->).
      now split.
  - now split.
  - now split.
  - unfold DoGetTables, SqliteStatement_Create,
      SqliteStatementBatchReader_Create_with, bind, ret.
    destruct (sqlite3_prepare (db_ srv) _);
      [| destruct (QueryBuilder.include_schema command)]; now split.
  - now apply query_keeps_registry.
  - now apply query_keeps_registry.
  - now apply query_keeps_registry.
Qed.

Lemma serve_all_retired (u : uuid) (rs : list Request)
    (srv : SQLiteFlightSqlServer) :
  retired u srv -> retired u
    (serve_all catalogs schemas tables table_types keys unknown srv rs).
Proof.
  revert srv; induction rs as [| r rs IH]; intros srv H; [exact H |].
  cbn. apply IH. now apply serve_retired.
Qed.
End ServeFacts.

(** *** Close *)

(** C3 (as amended).  For a handle whose uuid is registered, Close
    succeeds and erases the entry, leaving the others.  From then on,
    and after any further requests during which the generator does not
    return that uuid again, a second Close and every lookup of the
    handle fail with the status Invalid, message "Prepared statement
      not found". *)
Theorem close_retires_handle
    (catalogs schemas tables table_types keys : Schema) (unknown : DataType)
    (srv : SQLiteFlightSqlServer) (handle : string) (u : uuid)
    (statement : SqliteStatement) (reader : FlightMessageReader)
    (later : list Request) :
  lexical_cast handle = Some u ->
  prepared_statements_ srv !! u = Some statement ->
  (forall n, (uuid_draws srv <= n)%nat -> uuid_generator_ srv n <> u) ->
  ClosePreparedStatement handle srv
  = (Done (SimpleResultStream []), after_close u srv)
  /\ prepared_statements_ (after_close u srv) !! u = None
  /\ (forall u', u' <> u ->
        prepared_statements_ (after_close u srv) !! u'
        = prepared_statements_ srv !! u')
  /\ (let srv' := serve_all catalogs schemas tables table_types keys unknown
                    (after_close u srv) later in
      ClosePreparedStatement handle srv' = (Failed not_found, srv')
      /\ GetFlightInfoPreparedStatement handle srv' = (Failed not_found, srv')
      /\ DoGetPreparedStatement handle srv' = (Failed not_found, srv')
      /\ DoPutPreparedStatement handle reader srv' = (Failed not_found, srv'))
  /\ code not_found = Invalid.
Proof.
  intros E L G.
  split; [exact (close_known_handle srv handle u statement E L) |].
  split; [apply lookup_delete_eq |].
  split; [intros u' Hne; cbn; now rewrite lookup_delete_ne |].
  split; [| reflexivity].
  assert (retired u (after_close u srv)) as R.
  { split; [apply lookup_delete_eq | exact G]. }
  apply (serve_all_retired catalogs schemas tables table_types keys unknown
           u later) in R.
  destruct R as [R _].
  exact (unknown_handle_fails _ handle u reader E R).
Qed.

Lemma close_retires_handle_witness :
  lexical_cast nil_handle = Some nil_uuid
  /\ prepared_statements_ one_statement_server !! nil_uuid
     = Some example_statement
  /\ (forall n, (uuid_draws one_statement_server <= n)%nat ->
        uuid_generator_ one_statement_server n <> nil_uuid)
  /\ ClosePreparedStatement nil_handle one_statement_server
     = (Done (SimpleResultStream []),
        after_close nil_uuid one_statement_server).
Proof.
  split; [reflexivity |].
  split; [apply lookup_singleton_eq |].
  split; [intros n _; discriminate |].
  apply (close_retires_handle [] [] [] [] [] null one_statement_server
           nil_handle nil_uuid example_statement []
           [CreatePrepared example_sql; DoGetPrepared nil_handle]).
  - reflexivity.
  - apply lookup_singleton_eq.
  - intros n _; discriminate.
Defined.

(** C3 fails as stated: the first Close succeeds, the second Close and
    the lookup fail, but with a status that is not of class NotFound. *)
Lemma second_close_not_NotFound :
  ClosePreparedStatement nil_handle one_statement_server
  = (Done (SimpleResultStream []), after_close nil_uuid one_statement_server)
  /\ ClosePreparedStatement nil_handle
       (after_close nil_uuid one_statement_server)
     = (Failed not_found, after_close nil_uuid one_statement_server)
  /\ DoGetPreparedStatement nil_handle
       (after_close nil_uuid one_statement_server)
     = (Failed not_found, after_close nil_uuid one_statement_server)
  /\ code not_found = Invalid
  /\ ~ has_class NotFound not_found.
Proof.
  split.
  { apply (close_known_handle _ _ nil_uuid example_statement);
      [reflexivity | apply lookup_singleton_eq]. }
  destruct (unknown_handle_fails (after_close nil_uuid one_statement_server)
              nil_handle nil_uuid [] nil_handle_cast)
    as (A & _ & C & _); [apply lookup_delete_eq |].
  repeat split; try assumption. cbn. discriminate.
Qed.

(** *** Create, then resolve *)




(** *** Parameter schema *)

(** [std::to_string] of a positive index is its decimal numeral: read
    back as a decimal number it gives the index. *)
Lemma std_to_string_decimal (i : Z) :
  (1 <= i)%Z ->
  option_map Z.of_int (DecimalString.NilZero.int_of_string (std_to_string i))
  = Some i.
Proof.
  intros H. unfold std_to_string.
  rewrite DecimalString.NilZero.isi.
  - cbn. now rewrite DecimalZ.of_to.
  - destruct i as [| q | q]; try lia. cbn.
    intros [= E]. now apply (DecimalPos.Unsigned.to_uint_nonnil q).
  - destruct i as [| q | q]; try lia. discriminate.
Qed.

(** C9 (as amended).  For a text the engine compiles, the parameter
    schema Create reports has exactly as many fields as the engine
    counts parameters for the statement (its largest parameter index,
    not the number of placeholders written in the text), in index order;
    field i (from 1) bears the name the engine reports for parameter i,
    or, when it reports none, parameter_ followed by the decimal numeral
    of i; every field has the type standing for an unknown value. *)
Theorem parameter_schema_of_create
    (unknown : DataType) (sql : string) (srv : SQLiteFlightSqlServer)
    (statement : SqliteStatement) :
  sqlite3_prepare (db_ srv) sql = inr statement ->
  exists res srv',
    CreatePreparedStatement unknown sql srv
    = (Done (SimpleResultStream [res]), srv')
    /\ Z.of_nat (List.length (parameter_schema res))
       = sqlite3_bind_parameter_count statement
    /\ (forall i : Z,
          (1 <= i <= sqlite3_bind_parameter_count statement)%Z ->
          parameter_schema res !! Z.to_nat (i - 1)
          = Some (field
                    (match sqlite3_bind_parameter_name statement i with
                     | Some name => name
                     | None => "parameter_" ++ std_to_string i
                     end) unknown)
          /\ option_map Z.of_int
               (DecimalString.NilZero.int_of_string (std_to_string i))
             = Some i)
    /\ Forall (fun f => field_type f = unknown) (parameter_schema res).
Proof.
  intros E. eexists. eexists.
  split; [exact (create_accepted unknown sql srv statement E) |].
  cbn [parameter_schema].
  split.
  { unfold sqlite3_bind_parameter_count. now rewrite fields_from_length. }
  split; [| apply fields_from_types].
  intros i [Hlo Hhi]. split; [| now apply std_to_string_decimal].
  unfold sqlite3_bind_parameter_count in Hhi.
  rewrite fields_from_lookup. unfold sqlite3_bind_parameter_name.
  destruct (Z.leb_spec 1 i); [| lia].
  destruct (stmt_parameters statement !! Z.to_nat (i - 1)) as [name |] eqn:L.
  - cbn. unfold parameter_field. do 2 f_equal.
    destruct name; [reflexivity |]. do 2 f_equal. lia.
  - apply lookup_ge_None in L. lia.
Qed.

Lemma parameter_schema_of_create_witness :
  sqlite3_prepare (db_ Statements.numbering_server) Statements.numbered_sql
  = inr Statements.numbered_statement
  /\ exists res srv',
       CreatePreparedStatement utf8 Statements.numbered_sql
         Statements.numbering_server
       = (Done (SimpleResultStream [res]), srv')
       /\ map field_name (parameter_schema res)
          = [ "parameter_1"; ":a"; "parameter_3"; "parameter_4";
              "parameter_5"; "parameter_6"; "parameter_7"; "parameter_8";
              "parameter_9"; "parameter_10"; "parameter_11"; "?12" ]
       /\ parameter_schema res !! 9%nat = Some (field "parameter_10" utf8).
Proof.
  split; [reflexivity |].
  destruct (parameter_schema_of_create utf8 Statements.numbered_sql
              Statements.numbering_server Statements.numbered_statement
              eq_refl)
    as (res & srv' & C & _ & N & _).
  exists res, srv'. split; [exact C |].
  split.
  - pose proof (create_accepted utf8 Statements.numbered_sql
                  Statements.numbering_server Statements.numbered_statement
                  eq_refl) as C'.
    rewrite C' in C. injection C as <- _. reflexivity.
  - assert (1 <= 10 <= sqlite3_bind_parameter_count
                         Statements.numbered_statement)%Z as B
      by (split; discriminate).
    exact (proj1 (N 10%Z B)).
Defined.

(** C9 fails as stated: the number of fields is the engine's parameter
    count, not the number of placeholders of the text.  The text below
    has three placeholders; the engine, which counts up to the largest
    index, compiles it to a statement of twelve parameters, and the
    parameter schema has twelve fields. *)
Lemma parameter_count_is_not_placeholder_count :
  Statements.count_placeholders Statements.numbered_sql = 3%nat
  /\ sqlite3_prepare (db_ Statements.numbering_server) Statements.numbered_sql
     = inr Statements.numbered_statement
  /\ exists res srv',
       CreatePreparedStatement utf8 Statements.numbered_sql
         Statements.numbering_server
       = (Done (SimpleResultStream [res]), srv')
       /\ List.length (parameter_schema res) = 12%nat
       /\ List.length (parameter_schema res)
          <> Statements.count_placeholders Statements.numbered_sql.
Proof.
  split; [reflexivity |]. split; [reflexivity |].
  eexists. eexists.
  split; [exact (create_accepted utf8 Statements.numbered_sql
                   Statements.numbering_server Statements.numbered_statement
                   eq_refl) |].
  split; [reflexivity | discriminate].
Qed.

End RegistryFacts.

(** ** Catalogs and schemas *)

Module MetadataFacts.
Import Server.

(** For contrast: a metadata command that does query the engine hands
    it one text. *)
Lemma DoGetTableTypes_queries (schema : Schema) (srv : SQLiteFlightSqlServer) :
  prepared_texts (db_ (snd (DoGetTableTypes schema srv)))
  = (prepared_texts (db_ srv)
     ++ ["SELECT DISTINCT type as table_type FROM sqlite_master"])%list.
Proof.
  unfold DoGetTableTypes, DoGetSQLiteQuery, SqliteStatement_Create, bind.
  destruct (sqlite3_prepare (db_ srv) _); reflexivity.
Qed.

(** C8.  GetCatalogs and GetSchemas, whatever the filters, succeed with
    a stream of one batch that has the fixed metadata schema, no row
    and one empty column per field (one for catalogs, two for
    schemas); the server, and with it the list of texts handed to the
    engine, is unchanged. *)
Theorem catalogs_and_schemas_are_empty
    (catalogs schemas : Schema) (command : CommandGetSchemas)
    (srv : SQLiteFlightSqlServer) :
  DoGetCatalogs catalogs srv
  = (Done (RecordBatchStream
             (BatchesReader
                [ {| batch_schema := catalogs; num_rows := 0;
                     columns := [ [] ] |} ])), srv)
  /\ DoGetSchemas schemas command srv
     = (Done (RecordBatchStream
                (BatchesReader
                   [ {| batch_schema := schemas; num_rows := 0;
                        columns := [ []; [] ] |} ])), srv)
  /\ prepared_texts (db_ (snd (DoGetCatalogs catalogs srv)))
     = prepared_texts (db_ srv)
  /\ prepared_texts (db_ (snd (DoGetSchemas schemas command srv)))
     = prepared_texts (db_ srv).
Proof. repeat split. Qed.

End MetadataFacts.

(** ** Parameter binding *)

Module BinderFacts.
Import Uuid Server RegistryFacts.

Lemma strlen_c_str (s : list byte) :
  strlen (c_str s) = Z.of_nat (List.length (before_NUL s)).
Proof.
  unfold c_str. induction s as [| b s IH]; [reflexivity |].
  cbn [app strlen before_NUL].
  destruct (Byte.eqb b "000"%byte); [reflexivity |].
  rewrite IH. cbn [List.length]. lia.
Qed.

Lemma before_NUL_length (s : list byte) :
  (List.length (before_NUL s) <= List.length s)%nat.
Proof.
  induction s as [| b s IH]; cbn; [lia |].
  destruct (Byte.eqb b "000"%byte); cbn; lia.
Qed.

Lemma take_before_NUL (s : list byte) :
  take (List.length (before_NUL s)) (c_str s) = before_NUL s.
Proof.
  unfold c_str. induction s as [| b s IH]; [reflexivity |].
  cbn [before_NUL]. destruct (Byte.eqb b "000"%byte); [reflexivity |].
  cbn. now rewrite IH.
Qed.

Lemma before_NUL_first (pre post : list byte) :
  Forall (fun b => b <> "000"%byte) pre ->
  before_NUL (pre ++ "000"%byte :: post) = pre.
Proof.
  induction 1 as [| b pre Hb Hpre IH]; [reflexivity |].
  cbn. destruct (Byte.eqb b "000"%byte) eqn:Eb;
    [apply Byte.byte_dec_bl in Eb; contradiction |].
  now rewrite IH.
Qed.

Lemma before_NUL_none (s : list byte) :
  Forall (fun b => b <> "000"%byte) s -> before_NUL s = s.
Proof.
  induction 1 as [| b s Hb Hs IH]; [reflexivity |].
  cbn. destruct (Byte.eqb b "000"%byte) eqn:Eb;
    [apply Byte.byte_dec_bl in Eb; contradiction |].
  now rewrite IH.
Qed.

Lemma static_cast_int_small (z : Z) :
  (- 2 ^ 31 <= z < 2 ^ 31)%Z -> static_cast_int z = z.
Proof.
  intros H. unfold static_cast_int.
  rewrite Z.mod_small by lia. lia.
Qed.

(** The calls the binder makes for the four types it supports. *)
Lemma bind_holder_int64 stmt c value :
  bind_holder stmt c (Int64Scalar value)
  = (None, sqlite3_bind (sqlite3_bind_int64 (c + 1) value) stmt).
Proof. reflexivity. Qed.

Lemma bind_holder_float stmt c value :
  bind_holder stmt c (FloatScalar value)
  = (None, sqlite3_bind
             (sqlite3_bind_double (c + 1) (double_of_float value)) stmt).
Proof. reflexivity. Qed.

Lemma bind_holder_string stmt c buffer :
  (Z.of_nat (List.length buffer) < 2 ^ 31)%Z ->
  bind_holder stmt c (StringScalar buffer)
  = (None, sqlite3_bind
             (sqlite3_bind_text (c + 1) (c_str buffer)
                (Z.of_nat (List.length (before_NUL buffer)))
                SQLITE_TRANSIENT) stmt).
Proof.
  intros H. unfold bind_holder.
  rewrite strlen_c_str, static_cast_int_small; [reflexivity |].
  pose proof (before_NUL_length buffer). lia.
Qed.

Lemma bind_holder_binary stmt c buffer :
  (Z.of_nat (List.length buffer) < 2 ^ 31)%Z ->
  bind_holder stmt c (BinaryScalar buffer)
  = (None, sqlite3_bind
             (sqlite3_bind_blob (c + 1) buffer
                (Z.of_nat (List.length buffer)) SQLITE_TRANSIENT) stmt).
Proof.
  intros H. unfold bind_holder.
  rewrite static_cast_int_small; [reflexivity | lia].
Qed.

(** Every other type is refused, by name, and nothing is bound. *)
Lemma bind_holder_unsupported stmt c holder :
  match holder with
  | Int64Scalar _ | FloatScalar _ | StringScalar _ | BinaryScalar _ => False
  | _ => True
  end ->
  bind_holder stmt c holder
  = (Some (Status_Invalid ("Received unsupported data type: "
                           ++ ToString (scalar_type holder))), stmt).
Proof. destruct holder; intros H; try contradiction; reflexivity. Qed.

(** A registered handle: the parameters are bound on its statement,
    and the statement stays registered with the calls made. *)
Lemma put_known_handle (srv : SQLiteFlightSqlServer) (handle : string)
    (u : uuid) (statement : SqliteStatement) (reader : FlightMessageReader) :
  lexical_cast handle = Some u ->
  prepared_statements_ srv !! u = Some statement ->
  DoPutPreparedStatement handle reader srv
  = (match fst (chunks_loop reader statement) with
     | Some status => Failed status
     | None => Done tt
     end,
     with_prepared_statements
       (<[u := snd (chunks_loop reader statement)]> (prepared_statements_ srv))
       srv).
Proof.
  intros E L.
  unfold DoPutPreparedStatement, lexical_cast_uuid, bind, get, put, ret, fail.
  rewrite E. cbn beta iota. rewrite L.
  destruct (chunks_loop reader statement) as [[status |] stmt'];
    reflexivity.
Qed.

(** C10.  A string cell is bound with the length [strlen] finds in its
    NUL-terminated copy: the engine keeps the bytes before the first
    NUL, so a value with an embedded NUL is cut there and a value
    without one is kept whole.  A binary cell is bound with the size of
    its buffer and kept whole, NUL bytes included.  (Cells of string
    and binary arrays are shorter than 2^31 bytes.) *)
Theorem string_cut_at_NUL_binary_whole
    (stmt : SqliteStatement) (c : Z) (buffer : Buffer) :
  (Z.of_nat (List.length buffer) < 2 ^ 31)%Z ->
  (exists call,
      bind_holder stmt c (StringScalar buffer) = (None, sqlite3_bind call stmt)
      /\ call = sqlite3_bind_text (c + 1) (c_str buffer)
                  (strlen (c_str buffer)) SQLITE_TRANSIENT
      /\ bound_bytes call = before_NUL buffer)
  /\ (forall pre post,
        buffer = (pre ++ "000"%byte :: post)%list ->
        Forall (fun b => b <> "000"%byte) pre ->
        before_NUL buffer = pre)
  /\ (Forall (fun b => b <> "000"%byte) buffer -> before_NUL buffer = buffer)
  /\ (exists call,
        bind_holder stmt c (BinaryScalar buffer)
        = (None, sqlite3_bind call stmt)
        /\ call = sqlite3_bind_blob (c + 1) buffer
                    (Z.of_nat (List.length buffer)) SQLITE_TRANSIENT
        /\ bound_bytes call = buffer).
Proof.
  intros H. split; [| split; [| split]].
  - eexists. split; [apply (bind_holder_string stmt c buffer H) |].
    split; [now rewrite strlen_c_str |].
    cbn [bound_bytes]. rewrite Nat2Z.id. apply take_before_NUL.
  - intros pre post -> Hpre. now apply before_NUL_first.
  - apply before_NUL_none.
  - eexists. split; [apply (bind_holder_binary stmt c buffer H) |].
    split; [reflexivity |].
    cbn [bound_bytes]. rewrite Nat2Z.id. apply firstn_all.
Qed.

Lemma string_cut_at_NUL_binary_whole_witness :
  (Z.of_nat (List.length a_NUL_b) < 2 ^ 31)%Z
  /\ (exists call,
        bind_holder example_statement 0 (StringScalar a_NUL_b)
        = (None, sqlite3_bind call example_statement)
        /\ call = sqlite3_bind_text 1 (c_str a_NUL_b) 1 SQLITE_TRANSIENT
        /\ bound_bytes call = [ "097"%byte ])
  /\ (exists call,
        bind_holder example_statement 0 (BinaryScalar a_NUL_b)
        = (None, sqlite3_bind call example_statement)
        /\ call = sqlite3_bind_blob 1 a_NUL_b 3 SQLITE_TRANSIENT
        /\ bound_bytes call = a_NUL_b).
Proof.
  assert (Z.of_nat (List.length a_NUL_b) < 2 ^ 31)%Z as H by (cbn; lia).
  split; [exact H |].
  destruct (string_cut_at_NUL_binary_whole example_statement 0 a_NUL_b H)
    as (S & _ & _ & B).
  split; [exact S | exact B].
Defined.

(** *** A 64-bit float cell *)

(** C1, where the code departs from it.  A cell holding a 64-bit float
    is not bound with [sqlite3_bind_double]: the binder refuses it as
    an unsupported type named double, and the command fails with
    Invalid without any bind call.  The case that calls
    [sqlite3_bind_double] is the one for 32-bit floats.  The other
    rules hold: on the mixed batch the cells are bound row by row at
    the 1-based position of their column, integers with
    [sqlite3_bind_int64], strings as transient text, binaries as
    transient blobs of their exact length; booleans, 32-bit integers,
    lists and maps are refused by name. *)
Theorem double_cell_is_refused :
  (forall stmt c value,
     bind_holder stmt c (DoubleScalar value)
     = (Some (Status_Invalid "Received unsupported data type: double"),
        stmt))
  /\ fst (DoPutPreparedStatement nil_handle [inr double_batch]
            one_statement_server)
     = Failed (Status_Invalid "Received unsupported data type: double")
  /\ (stmt_bound <$>
        prepared_statements_
          (snd (DoPutPreparedStatement nil_handle [inr double_batch]
                  one_statement_server)) !! nil_uuid)
     = Some []
  /\ fst (DoPutPreparedStatement nil_handle [inr mixed_batch]
            one_statement_server)
     = Done tt
  /\ (stmt_bound <$>
        prepared_statements_
          (snd (DoPutPreparedStatement nil_handle [inr mixed_batch]
                  one_statement_server)) !! nil_uuid)
     = Some
         [ sqlite3_bind_int64 1 1;
           sqlite3_bind_text 2
             [ "097"%byte; "098"%byte; "099"%byte; "000"%byte ] 3
             SQLITE_TRANSIENT;
           sqlite3_bind_blob 3 [ "000"%byte; "255"%byte ] 2 SQLITE_TRANSIENT;
           sqlite3_bind_double 4 (double_of_float (float_bits 1069547520));
           sqlite3_bind_int64 1 2;
           sqlite3_bind_text 2 [ "000"%byte ] 0 SQLITE_TRANSIENT;
           sqlite3_bind_blob 3 [] 0 SQLITE_TRANSIENT;
           sqlite3_bind_double 4 (double_of_float (float_bits 0)) ]
  /\ map (fun holder => fst (bind_holder example_statement 0 holder))
       [ BooleanScalar true; Int32Scalar 7; ListScalar utf8;
         MapScalar int32 (list_ int32) ]
     = map (fun name =>
              Some (Status_Invalid ("Received unsupported data type: " ++ name)))
         [ "bool"; "int32"; "list<item: string>";
           "map<int32, list<item: int32>>" ].
Proof.
  assert (prepared_statements_ one_statement_server !! nil_uuid
          = Some example_statement) as L by apply lookup_singleton_eq.
  split; [reflexivity |].
  rewrite !(put_known_handle _ _ _ _ _ nil_handle_cast L).
  assert (chunks_loop [inr double_batch] example_statement
          = (Some (Status_Invalid "Received unsupported data type: double"),
             example_statement)) as -> by reflexivity.
  split; [reflexivity |].
  split; [cbn; now rewrite lookup_insert_eq |].
  destruct (chunks_loop [inr mixed_batch] example_statement)
    as [status stmt'] eqn:E.
  vm_compute in E. injection E as <- <-.
  split; [reflexivity |].
  split; [cbn; now rewrite lookup_insert_eq |].
  reflexivity.
Qed.

End BinderFacts.


(** ** The binder over whole streams *)

Module CellsFacts.
Import Uuid Server Cells RegistryFacts BinderFacts.

Lemma with_calls_nil (stmt : SqliteStatement) : with_calls [] stmt = stmt.
Proof. destruct stmt. unfold with_calls. cbn. now rewrite app_nil_r. Qed.

Lemma with_calls_app (a b : list BindCall) (stmt : SqliteStatement) :
  with_calls b (with_calls a stmt) = with_calls (a ++ b) stmt.
Proof. unfold with_calls. cbn. now rewrite app_assoc. Qed.

Lemma bind_cells_app (a b : list (Z * Scalar)) (stmt : SqliteStatement) :
  bind_cells (a ++ b) stmt
  = match bind_cells a stmt with
    | (None, stmt') => bind_cells b stmt'
    | (Some status, stmt') => (Some status, stmt')
    end.
Proof.
  revert stmt; induction a as [| [c h] a IH]; intros stmt; [reflexivity |].
  cbn [app bind_cells].
  destruct (bind_holder stmt c h) as [[status |] stmt']; [reflexivity |].
  apply IH.
Qed.

(** The loop over the columns of row [i] binds the cells of that row. *)
Lemma columns_loop_cells (b : RecordBatch) (i : nat)
    (rest done : list Array) (stmt : SqliteStatement) :
  columns b = (done ++ rest)%list ->
  Forall (fun col => (i < List.length col)%nat) rest ->
  columns_loop b (Z.of_nat i) (List.length rest)
    (Z.of_nat (List.length done)) stmt
  = bind_cells (cells_from (Z.of_nat (List.length done)) rest i) stmt.
Proof.
  revert done stmt; induction rest as [| col rest IH]; intros done stmt E F;
    [reflexivity |].
  inversion F as [| ? ? Hcol Hrest]; subst.
  destruct (lookup_lt_is_Some_2 col i Hcol) as [h Hh].
  cbn [List.length columns_loop cells_from bind_cells].
  rewrite Nat2Z.id, E, app_nth2, Nat.sub_diag by lia. cbn [nth].
  unfold GetScalar.
  destruct (Z.leb_spec 0 (Z.of_nat i)); [| lia].
  unfold Array in *. rewrite Nat2Z.id, Hh. cbn [bind_cells].
  destruct (bind_holder stmt (Z.of_nat (List.length done)) h)
    as [[status |] stmt']; [reflexivity |].
  specialize (IH (done ++ [col])%list stmt').
  rewrite List.length_app in IH. cbn [List.length] in IH.
  replace (Z.of_nat (List.length done + 1))
    with (Z.of_nat (List.length done) + 1)%Z in IH by lia.
  apply IH; [| exact Hrest].
  rewrite E, <- app_assoc. reflexivity.
Qed.

Lemma rows_loop_cells (b : RecordBatch) (todo i : nat)
    (stmt : SqliteStatement) :
  rectangular b ->
  (i + todo <= Z.to_nat (num_rows b))%nat ->
  rows_loop b todo (Z.of_nat i) stmt
  = bind_cells (flat_map (cells_from 0 (columns b)) (seq i todo)) stmt.
Proof.
  intros R. revert i stmt; induction todo as [| todo IH]; intros i stmt H;
    [reflexivity |].
  cbn [rows_loop seq flat_map]. rewrite bind_cells_app.
  unfold num_columns. rewrite Nat2Z.id.
  pose proof (columns_loop_cells b i (columns b) [] stmt eq_refl) as C.
  change (Z.of_nat (List.length (@nil Array))) with 0%Z in C. rewrite C.
  - destruct (bind_cells (cells_from 0 (columns b) i) stmt)
      as [[status |] stmt']; [reflexivity |].
    replace (Z.of_nat i + 1)%Z with (Z.of_nat (S i)) by lia.
    apply IH. lia.
  - eapply Forall_impl; [exact R |]. cbn. intros col Hc. lia.
Qed.

(** A stream of batches binds the cells of the batches in turn. *)
Lemma chunks_loop_cells (batches : list RecordBatch) (stmt : SqliteStatement) :
  Forall rectangular batches ->
  chunks_loop (map inr batches) stmt = bind_cells (stream_cells batches) stmt.
Proof.
  intros R. revert stmt; induction R as [| b batches Hb R IH]; intros stmt;
    [reflexivity |].
  cbn [map chunks_loop]. unfold stream_cells. cbn [flat_map].
  rewrite bind_cells_app.
  pose proof (rows_loop_cells b (Z.to_nat (num_rows b)) 0 stmt Hb) as L.
  change (Z.of_nat 0) with 0%Z in L. rewrite L by lia. fold (batch_cells b).
  destruct (bind_cells (batch_cells b) stmt) as [[status |] stmt'];
    [reflexivity |].
  apply IH.
Qed.

Lemma bind_holder_bindable (stmt : SqliteStatement) (c : Z) (h : Scalar) :
  bindable (c, h) ->
  bind_holder stmt c h = (None, with_calls (call_of (c, h)) stmt).
Proof.
  intros [S F]. destruct h; try discriminate; cbn in F.
  - reflexivity.
  - reflexivity.
  - now rewrite bind_holder_string.
  - now rewrite bind_holder_binary.
Qed.

Lemma bind_cells_bindable (cells : list (Z * Scalar)) (stmt : SqliteStatement) :
  Forall bindable cells ->
  bind_cells cells stmt = (None, with_calls (flat_map call_of cells) stmt).
Proof.
  intros F. revert stmt; induction F as [| [c h] cells Hc F IH]; intros stmt.
  - cbn. now rewrite with_calls_nil.
  - cbn [bind_cells flat_map]. rewrite (bind_holder_bindable _ _ _ Hc).
    rewrite IH. now rewrite with_calls_app.
Qed.

Lemma bind_cells_refusal (pre post : list (Z * Scalar)) (c : Z) (h : Scalar)
    (stmt : SqliteStatement) :
  Forall bindable pre ->
  supported h = false ->
  bind_cells (pre ++ (c, h) :: post) stmt
  = (Some (Status_Invalid ("Received unsupported data type: "
                           ++ ToString (scalar_type h))),
     with_calls (flat_map call_of pre) stmt).
Proof.
  intros F U. rewrite bind_cells_app, (bind_cells_bindable _ _ F).
  cbn [bind_cells].
  destruct h; try discriminate; reflexivity.
Qed.

Lemma chunks_loop_app (r1 r2 : FlightMessageReader) (stmt : SqliteStatement) :
  chunks_loop (r1 ++ r2)%list stmt
  = match chunks_loop r1 stmt with
    | (None, stmt') => chunks_loop r2 stmt'
    | (Some status, stmt') => (Some status, stmt')
    end.
Proof.
  revert stmt; induction r1 as [| [status | b] r1 IH]; intros stmt;
    [reflexivity | reflexivity |].
  cbn [app chunks_loop].
  destruct (rows_loop b (Z.to_nat (num_rows b)) 0 stmt) as [[status |] stmt'];
    [reflexivity |].
  apply IH.
Qed.

(** The server once [calls] were made on the statement of [u]. *)
Lemma put_over_bindable_cells (srv : SQLiteFlightSqlServer) (handle : string)
    (u : uuid) (statement : SqliteStatement) (batches : list RecordBatch) :
  lexical_cast handle = Some u ->
  prepared_statements_ srv !! u = Some statement ->
  Forall rectangular batches ->
  DoPutPreparedStatement handle (map inr batches) srv
  = (match fst (bind_cells (stream_cells batches) statement) with
     | Some status => Failed status
     | None => Done tt
     end,
     with_prepared_statements
       (<[u := snd (bind_cells (stream_cells batches) statement)]>
          (prepared_statements_ srv)) srv).
Proof.
  intros E L R. rewrite (put_known_handle _ _ _ _ _ E L).
  now rewrite chunks_loop_cells.
Qed.

(** X1.  When every column of every batch has a cell for each row and
    every cell is of a supported type, the command succeeds and the
    registered statement has received, after the calls it already had,
    one bind call per cell: batch after batch, row after row, column
    after column, at the 1-based position of the column. *)
Theorem put_binds_cells_in_row_major_order
    (srv : SQLiteFlightSqlServer) (handle : string) (u : uuid)
    (statement : SqliteStatement) (batches : list RecordBatch) :
  lexical_cast handle = Some u ->
  prepared_statements_ srv !! u = Some statement ->
  Forall rectangular batches ->
  Forall bindable (stream_cells batches) ->
  DoPutPreparedStatement handle (map inr batches) srv
  = (Done tt,
     with_prepared_statements
       (<[u := with_calls (flat_map call_of (stream_cells batches)) statement]>
          (prepared_statements_ srv)) srv).
Proof.
  intros E L R B. rewrite (put_over_bindable_cells _ _ _ _ _ E L R).
  now rewrite (bind_cells_bindable _ _ B).
Qed.

Lemma mixed_batch_rectangular : Forall rectangular [ mixed_batch ].
Proof. repeat constructor; cbn; lia. Qed.

Lemma mixed_batch_bindable : Forall bindable (stream_cells [ mixed_batch ]).
Proof. repeat constructor; cbn; lia. Qed.

Lemma put_binds_cells_in_row_major_order_witness :
  lexical_cast nil_handle = Some nil_uuid
  /\ prepared_statements_ one_statement_server !! nil_uuid
     = Some example_statement
  /\ Forall rectangular [ mixed_batch ]
  /\ Forall bindable (stream_cells [ mixed_batch ])
  /\ fst (DoPutPreparedStatement nil_handle (map inr [ mixed_batch ])
            one_statement_server)
     = Done tt.
Proof.
  split; [reflexivity |].
  split; [apply lookup_singleton_eq |].
  split; [exact mixed_batch_rectangular |].
  split; [exact mixed_batch_bindable |].
  rewrite (put_binds_cells_in_row_major_order one_statement_server nil_handle
             nil_uuid example_statement [ mixed_batch ] eq_refl
             (lookup_singleton_eq _ _) mixed_batch_rectangular
             mixed_batch_bindable).
  reflexivity.
Defined.

(** X2.  Binding stops at the first cell of an unsupported type: the
    command fails with Invalid naming that type, the cells before it
    have been bound on the registered statement and stay bound, the
    cells after it are not looked at. *)
Theorem put_stops_at_first_unsupported_cell
    (srv : SQLiteFlightSqlServer) (handle : string) (u : uuid)
    (statement : SqliteStatement) (batches : list RecordBatch)
    (pre post : list (Z * Scalar)) (c : Z) (h : Scalar) :
  lexical_cast handle = Some u ->
  prepared_statements_ srv !! u = Some statement ->
  Forall rectangular batches ->
  stream_cells batches = (pre ++ (c, h) :: post)%list ->
  Forall bindable pre ->
  supported h = false ->
  DoPutPreparedStatement handle (map inr batches) srv
  = (Failed (Status_Invalid ("Received unsupported data type: "
                             ++ ToString (scalar_type h))),
     with_prepared_statements
       (<[u := with_calls (flat_map call_of pre) statement]>
          (prepared_statements_ srv)) srv).
Proof.
  intros E L R C B U. rewrite (put_over_bindable_cells _ _ _ _ _ E L R).
  now rewrite C, (bind_cells_refusal _ _ _ _ _ B U).
Qed.

Lemma two_batches_rectangular : Forall rectangular two_batches.
Proof. repeat constructor; cbn; lia. Qed.

Lemma two_batches_cells :
  stream_cells two_batches
  = ([ (0%Z, Int64Scalar 7); (1%Z, StringScalar [ "120"%byte ]);
       (0%Z, Int64Scalar 8); (1%Z, BinaryScalar []);
       (0%Z, Int64Scalar 9) ]
     ++ (1%Z, BooleanScalar true) :: [])%list.
Proof. reflexivity. Qed.

Lemma two_batches_prefix_bindable :
  Forall bindable
    [ (0%Z, Int64Scalar 7); (1%Z, StringScalar [ "120"%byte ]);
      (0%Z, Int64Scalar 8); (1%Z, BinaryScalar []); (0%Z, Int64Scalar 9) ].
Proof. repeat constructor; cbn; lia. Qed.

Lemma put_stops_at_first_unsupported_cell_witness :
  lexical_cast nil_handle = Some nil_uuid
  /\ prepared_statements_ one_statement_server !! nil_uuid
     = Some example_statement
  /\ Forall rectangular two_batches
  /\ supported (BooleanScalar true) = false
  /\ fst (DoPutPreparedStatement nil_handle (map inr two_batches)
            one_statement_server)
     = Failed (Status_Invalid "Received unsupported data type: bool").
Proof.
  split; [reflexivity |].
  split; [apply lookup_singleton_eq |].
  split; [exact two_batches_rectangular |].
  split; [reflexivity |].
  rewrite (put_stops_at_first_unsupported_cell one_statement_server nil_handle
             nil_uuid example_statement two_batches _ _ _ _ eq_refl
             (lookup_singleton_eq _ _) two_batches_rectangular
             two_batches_cells two_batches_prefix_bindable eq_refl).
  reflexivity.
Defined.

(** X3.  When a [Next] of the stream fails after some batches, the
    command returns that very status; the cells of the batches before
    the failure have been bound, nothing after it is read. *)
Theorem put_returns_stream_failure
    (srv : SQLiteFlightSqlServer) (handle : string) (u : uuid)
    (statement : SqliteStatement) (batches : list RecordBatch)
    (status : Status) (rest : FlightMessageReader) :
  lexical_cast handle = Some u ->
  prepared_statements_ srv !! u = Some statement ->
  Forall rectangular batches ->
  Forall bindable (stream_cells batches) ->
  DoPutPreparedStatement handle (map inr batches ++ inl status :: rest)%list srv
  = (Failed status,
     with_prepared_statements
       (<[u := with_calls (flat_map call_of (stream_cells batches)) statement]>
          (prepared_statements_ srv)) srv).
Proof.
  intros E L R B. rewrite (put_known_handle _ _ _ _ _ E L).
  rewrite chunks_loop_app, (chunks_loop_cells _ _ R),
    (bind_cells_bindable _ _ B).
  reflexivity.
Qed.

Lemma put_returns_stream_failure_witness :
  lexical_cast nil_handle = Some nil_uuid
  /\ prepared_statements_ one_statement_server !! nil_uuid
     = Some example_statement
  /\ Forall rectangular [ mixed_batch ]
  /\ Forall bindable (stream_cells [ mixed_batch ])
  /\ fst (DoPutPreparedStatement nil_handle
            (map inr [ mixed_batch ]
             ++ inl {| code := IOError; message := "stream closed" |}
                :: [ inr double_batch ])%list
            one_statement_server)
     = Failed {| code := IOError; message := "stream closed" |}.
Proof.
  split; [reflexivity |].
  split; [apply lookup_singleton_eq |].
  split; [exact mixed_batch_rectangular |].
  split; [exact mixed_batch_bindable |].
  rewrite (put_returns_stream_failure one_statement_server nil_handle
             nil_uuid example_statement [ mixed_batch ] _ _ eq_refl
             (lookup_singleton_eq _ _) mixed_batch_rectangular
             mixed_batch_bindable).
  reflexivity.
Defined.

Lemma with_same_statements (srv : SQLiteFlightSqlServer) (u : uuid)
    (statement : SqliteStatement) :
  prepared_statements_ srv !! u = Some statement ->
  with_prepared_statements (<[u := statement]> (prepared_statements_ srv)) srv
  = srv.
Proof.
  intros L. rewrite insert_id by exact L. now destruct srv.
Qed.

Lemma chunks_loop_no_rows (batches : list RecordBatch) (stmt : SqliteStatement) :
  Forall (fun b => (num_rows b <= 0)%Z) batches ->
  chunks_loop (map inr batches) stmt = (None, stmt).
Proof.
  induction 1 as [| b batches Hb F IH]; [reflexivity |].
  cbn [map chunks_loop].
  replace (Z.to_nat (num_rows b)) with 0%nat by lia.
  exact IH.
Qed.

(** X4.  A stream that ends at once, or that only delivers batches
    without rows, binds nothing: the command succeeds and the server is
    exactly as before. *)
Theorem put_without_rows_changes_nothing
    (srv : SQLiteFlightSqlServer) (handle : string) (u : uuid)
    (statement : SqliteStatement) (batches : list RecordBatch) :
  lexical_cast handle = Some u ->
  prepared_statements_ srv !! u = Some statement ->
  Forall (fun b => (num_rows b <= 0)%Z) batches ->
  DoPutPreparedStatement handle (map inr batches) srv = (Done tt, srv).
Proof.
  intros E L Z. rewrite (put_known_handle _ _ _ _ _ E L).
  rewrite (chunks_loop_no_rows _ _ Z). cbn [fst snd].
  now rewrite (with_same_statements _ _ _ L).
Qed.

Lemma put_without_rows_changes_nothing_witness :
  lexical_cast nil_handle = Some nil_uuid
  /\ prepared_statements_ one_statement_server !! nil_uuid
     = Some example_statement
  /\ DoPutPreparedStatement nil_handle [] one_statement_server
     = (Done tt, one_statement_server)
  /\ DoPutPreparedStatement nil_handle
       (map inr [ {| batch_schema := []; num_rows := 0;
                     columns := [ []; [] ] |} ])
       one_statement_server
     = (Done tt, one_statement_server).
Proof.
  split; [reflexivity |].
  split; [apply lookup_singleton_eq |].
  split.
  - apply (put_without_rows_changes_nothing one_statement_server nil_handle
             nil_uuid example_statement [] eq_refl (lookup_singleton_eq _ _)).
    constructor.
  - apply (put_without_rows_changes_nothing one_statement_server nil_handle
             nil_uuid example_statement _ eq_refl (lookup_singleton_eq _ _)).
    repeat constructor. cbn. lia.
Defined.

(** *** What binding never changes *)

Lemma extends_refl (stmt : SqliteStatement) : extends stmt stmt.
Proof. exists []. split; [now rewrite with_calls_nil | constructor]. Qed.

Lemma extends_trans (a b c : SqliteStatement) :
  extends a b -> extends b c -> extends a c.
Proof.
  intros (x & -> & Fx) (y & -> & Fy). exists (x ++ y)%list.
  split; [apply with_calls_app | now apply Forall_app].
Qed.

Lemma bind_holder_extends (stmt : SqliteStatement) (c : Z) (h : Scalar) :
  (0 <= c)%Z -> extends stmt (snd (bind_holder stmt c h)).
Proof.
  intros Hc. destruct h; cbn [bind_holder type_id scalar_type snd];
    try apply extends_refl;
    (eexists [ _ ]; split; [reflexivity |]; repeat constructor; cbn; lia).
Qed.

Lemma columns_loop_extends (b : RecordBatch) (i : Z) (todo : nat) (c : Z)
    (stmt : SqliteStatement) :
  (0 <= c)%Z -> extends stmt (snd (columns_loop b i todo c stmt)).
Proof.
  revert c stmt; induction todo as [| todo IH]; intros c stmt Hc;
    [apply extends_refl |].
  cbn [columns_loop].
  destruct (GetScalar _ i) as [status | h]; [apply extends_refl |].
  pose proof (bind_holder_extends stmt c h Hc) as B.
  destruct (bind_holder stmt c h) as [[status |] stmt']; [exact B |].
  eapply extends_trans; [exact B |]. apply IH. lia.
Qed.

Lemma rows_loop_extends (b : RecordBatch) (todo : nat) (i : Z)
    (stmt : SqliteStatement) :
  extends stmt (snd (rows_loop b todo i stmt)).
Proof.
  revert i stmt; induction todo as [| todo IH]; intros i stmt;
    [apply extends_refl |].
  cbn [rows_loop].
  pose proof (columns_loop_extends b i (Z.to_nat (num_columns b)) 0 stmt
                (Z.le_refl 0)) as C.
  destruct (columns_loop b i _ 0 stmt) as [[status |] stmt']; [exact C |].
  eapply extends_trans; [exact C |]. apply IH.
Qed.

Lemma chunks_loop_extends (reader : FlightMessageReader)
    (stmt : SqliteStatement) :
  extends stmt (snd (chunks_loop reader stmt)).
Proof.
  revert stmt; induction reader as [| [status | b] reader IH]; intros stmt;
    [apply extends_refl | apply extends_refl |].
  cbn [chunks_loop].
  pose proof (rows_loop_extends b (Z.to_nat (num_rows b)) 0 stmt) as R.
  destruct (rows_loop b _ 0 stmt) as [[status |] stmt']; [exact R |].
  eapply extends_trans; [exact R |]. apply IH.
Qed.

(** X5.  Whatever the handle and whatever the stream delivers, binding
    leaves the engine and the uuid generator alone, registers and
    retires no handle, and changes a registered statement at most by
    appending bind calls with an index of 1 or more: its text, output
    columns, parameters and earlier bind calls stay. *)
Theorem put_only_appends_bind_calls
    (srv : SQLiteFlightSqlServer) (handle : string)
    (reader : FlightMessageReader) :
  db_ (snd (DoPutPreparedStatement handle reader srv)) = db_ srv
  /\ uuid_generator_ (snd (DoPutPreparedStatement handle reader srv))
     = uuid_generator_ srv
  /\ uuid_draws (snd (DoPutPreparedStatement handle reader srv))
     = uuid_draws srv
  /\ forall u,
       match prepared_statements_ srv !! u with
       | Some statement =>
           exists statement',
             prepared_statements_
               (snd (DoPutPreparedStatement handle reader srv)) !! u
             = Some statement'
             /\ extends statement statement'
       | None =>
           prepared_statements_
             (snd (DoPutPreparedStatement handle reader srv)) !! u = None
       end.
Proof.
  assert (forall u,
            match prepared_statements_ srv !! u with
            | Some statement =>
                exists statement',
                  prepared_statements_ srv !! u = Some statement'
                  /\ extends statement statement'
            | None => prepared_statements_ srv !! u = None
            end) as Same.
  { intros u. destruct (prepared_statements_ srv !! u) as [st |];
      [| reflexivity].
    exists st. split; [reflexivity | apply extends_refl]. }
  destruct (lexical_cast handle) as [u0 |] eqn:E.
  2: { destruct (malformed_handle_throws srv handle reader E)
         as (_ & _ & _ & ->).
       cbn [snd]. repeat split. exact Same. }
  destruct (prepared_statements_ srv !! u0) as [st0 |] eqn:L0.
  2: { destruct (unknown_handle_fails srv handle u0 reader E L0)
         as (_ & _ & _ & ->).
       cbn [snd]. repeat split. exact Same. }
  rewrite (put_known_handle _ _ _ _ _ E L0). cbn [snd].
  split; [reflexivity |]. split; [reflexivity |]. split; [reflexivity |].
  intros u. cbn. destruct (decide (u0 = u)) as [<- | Hne].
  - rewrite L0, lookup_insert_eq. eexists. split; [reflexivity |].
    apply chunks_loop_extends.
  - rewrite lookup_insert_ne by exact Hne. apply Same.
Qed.

(** X6.  Binding then fetching: the statement is shared with the
    registry, so after a successful bind over supported cells DoGet with
    the same handle reads the statement that carries those bind calls,
    under the same dataset schema as before the bind. *)
Theorem put_then_get_reads_bound_statement
    (srv : SQLiteFlightSqlServer) (handle : string) (u : uuid)
    (statement : SqliteStatement) (batches : list RecordBatch) :
  lexical_cast handle = Some u ->
  prepared_statements_ srv !! u = Some statement ->
  Forall rectangular batches ->
  Forall bindable (stream_cells batches) ->
  exists schema srv',
    DoGetPreparedStatement handle srv
    = (Done (RecordBatchStream (SqliteStatementBatchReader statement schema)),
       srv)
    /\ DoPutPreparedStatement handle (map inr batches) srv = (Done tt, srv')
    /\ DoGetPreparedStatement handle srv'
       = (Done (RecordBatchStream
                  (SqliteStatementBatchReader
                     (with_calls (flat_map call_of (stream_cells batches))
                        statement) schema)),
          srv').
Proof.
  intros E L R B. eexists. eexists.
  split; [exact (proj2 (known_handle_resolves srv handle u statement E L)) |].
  split.
  - rewrite (put_over_bindable_cells _ _ _ _ _ E L R).
    rewrite (bind_cells_bindable _ _ B). reflexivity.
  - refine (proj2 (known_handle_resolves _ handle u _ E _)).
    apply lookup_insert_eq.
Qed.

Lemma put_then_get_reads_bound_statement_witness :
  lexical_cast nil_handle = Some nil_uuid
  /\ prepared_statements_ one_statement_server !! nil_uuid
     = Some example_statement
  /\ Forall rectangular [ mixed_batch ]
  /\ Forall bindable (stream_cells [ mixed_batch ])
  /\ exists schema srv',
       DoPutPreparedStatement nil_handle (map inr [ mixed_batch ])
         one_statement_server = (Done tt, srv')
       /\ DoGetPreparedStatement nil_handle srv'
          = (Done (RecordBatchStream
                     (SqliteStatementBatchReader
                        (with_calls
                           (flat_map call_of (stream_cells [ mixed_batch ]))
                           example_statement) schema)),
             srv').
Proof.
  split; [reflexivity |].
  split; [apply lookup_singleton_eq |].
  split; [exact mixed_batch_rectangular |].
  split; [exact mixed_batch_bindable |].
  destruct (put_then_get_reads_bound_statement one_statement_server
              nil_handle nil_uuid example_statement [ mixed_batch ] eq_refl
              (lookup_singleton_eq _ _) mixed_batch_rectangular
              mixed_batch_bindable) as (schema & srv' & _ & P & G).
  exists schema, srv'. split; [exact P | exact G].
Defined.

End CellsFacts.


(** ** Life cycle of a prepared statement *)

Module LifecycleFacts.
Import Uuid UuidFacts TypeMapper Server Statements RegistryFacts.

Lemma lookup_keeps_server (srv : SQLiteFlightSqlServer) (handle : string) :
  snd (GetFlightInfoPreparedStatement handle srv) = srv
  /\ snd (DoGetPreparedStatement handle srv) = srv.
Proof.
  destruct (lexical_cast handle) as [u |] eqn:E.
  - destruct (prepared_statements_ srv !! u) as [st |] eqn:L.
    + destruct (known_handle_resolves srv handle u st E L) as (-> & ->).
      now split.
    + destruct (unknown_handle_fails srv handle u [] E L) as (_ & -> & -> & _).
      now split.
  - destruct (malformed_handle_throws srv handle [] E) as (_ & -> & -> & _).
    now split.
Qed.

(** X7.  The two lookups never change the server, whatever the handle.
    Close succeeds exactly when the handle is the text of a registered
    uuid; when it does not succeed it leaves the server as it was. *)
Theorem lookups_are_read_only
    (srv : SQLiteFlightSqlServer) (handle : string) :
  snd (GetFlightInfoPreparedStatement handle srv) = srv
  /\ snd (DoGetPreparedStatement handle srv) = srv
  /\ match fst (ClosePreparedStatement handle srv) with
     | Done _ =>
         is_Some (lexical_cast handle ≫= (prepared_statements_ srv !!.))
     | _ =>
         snd (ClosePreparedStatement handle srv) = srv
         /\ lexical_cast handle ≫= (prepared_statements_ srv !!.) = None
     end.
Proof.
  destruct (lookup_keeps_server srv handle) as (I & G).
  split; [exact I |]. split; [exact G |].
  destruct (lexical_cast handle) as [u |] eqn:E.
  - destruct (prepared_statements_ srv !! u) as [st |] eqn:L.
    + rewrite (close_known_handle srv handle u st E L). cbn. rewrite L. eauto.
    + destruct (unknown_handle_fails srv handle u [] E L) as (-> & _).
      cbn. now rewrite L.
  - destruct (malformed_handle_throws srv handle [] E) as (-> & _).
    now cbn.
Qed.

(** X8.  A text the engine rejects: Create returns the engine's status,
    registers nothing and draws no uuid. *)
Theorem create_rejected_registers_nothing
    (unknown : DataType) (sql : string) (srv : SQLiteFlightSqlServer)
    (status : Status) :
  sqlite3_prepare (db_ srv) sql = inl status ->
  fst (CreatePreparedStatement unknown sql srv) = Failed status
  /\ prepared_statements_ (snd (CreatePreparedStatement unknown sql srv))
     = prepared_statements_ srv
  /\ uuid_draws (snd (CreatePreparedStatement unknown sql srv))
     = uuid_draws srv
  /\ uuid_generator_ (snd (CreatePreparedStatement unknown sql srv))
     = uuid_generator_ srv.
Proof.
  intros E. rewrite (create_rejected unknown sql srv status E).
  repeat split.
Qed.

Lemma create_rejected_registers_nothing_witness :
  sqlite3_prepare (db_ fresh_server) "SELEC 1"
  = inl (Status_Invalid "syntax error")
  /\ fst (CreatePreparedStatement null "SELEC 1" fresh_server)
     = Failed (Status_Invalid "syntax error")
  /\ prepared_statements_
       (snd (CreatePreparedStatement null "SELEC 1" fresh_server))
     = ∅.
Proof.
  split; [reflexivity |].
  destruct (create_rejected_registers_nothing null "SELEC 1" fresh_server
              (Status_Invalid "syntax error") eq_refl) as (A & B & _).
  split; [exact A | exact B].
Defined.

(** X9.  Create does not check the uuid it draws: when that uuid is
    already registered, the new statement takes the place of the old
    one, no handle is added, and the handle of the old statement now
    resolves to the new one. *)
Theorem create_replaces_on_collision
    (unknown : DataType) (sql : string) (srv : SQLiteFlightSqlServer)
    (statement old : SqliteStatement) :
  sqlite3_prepare (db_ srv) sql = inr statement ->
  well_formed (uuid_generator_ srv (uuid_draws srv)) ->
  prepared_statements_ srv !! uuid_generator_ srv (uuid_draws srv)
  = Some old ->
  exists res srv',
    CreatePreparedStatement unknown sql srv
    = (Done (SimpleResultStream [res]), srv')
    /\ prepared_statement_handle res
       = to_string (uuid_generator_ srv (uuid_draws srv))
    /\ dom (prepared_statements_ srv') = dom (prepared_statements_ srv)
    /\ prepared_statements_ srv' !! uuid_generator_ srv (uuid_draws srv)
       = Some statement
    /\ exists schema,
         DoGetPreparedStatement (prepared_statement_handle res) srv'
         = (Done (RecordBatchStream
                    (SqliteStatementBatchReader statement schema)), srv').
Proof.
  intros E W L. eexists. eexists.
  split; [exact (create_accepted unknown sql srv statement E) |].
  cbn [prepared_statement_handle].
  split; [reflexivity |].
  split; [cbn; apply dom_insert_lookup_L; rewrite L; eauto |].
  assert (prepared_statements_ (after_create sql statement srv)
            !! uuid_generator_ srv (uuid_draws srv) = Some statement) as L'
    by apply lookup_insert_eq.
  split; [exact L' |].
  eexists.
  exact (proj2 (known_handle_resolves _ _ _ _ (lexical_cast_to_string _ W) L')).
Qed.

Lemma create_replaces_on_collision_witness :
  sqlite3_prepare (db_ colliding_server) example_sql = inr example_statement
  /\ well_formed (uuid_generator_ colliding_server (uuid_draws colliding_server))
  /\ prepared_statements_ colliding_server
       !! uuid_generator_ colliding_server (uuid_draws colliding_server)
     = Some old_statement
  /\ exists res srv',
       CreatePreparedStatement null example_sql colliding_server
       = (Done (SimpleResultStream [res]), srv')
       /\ prepared_statements_ srv' !! nil_uuid = Some example_statement.
Proof.
  split; [reflexivity |]. split; [reflexivity |].
  split; [apply lookup_singleton_eq |].
  destruct (create_replaces_on_collision null example_sql colliding_server
              example_statement old_statement eq_refl eq_refl
              (lookup_singleton_eq _ _))
    as (res & srv' & C & _ & _ & L & _).
  exists res, srv'. split; [exact C | exact L].
Defined.

(** X10.  Create then Close: when the uuid drawn is not yet registered,
    closing the handle Create returned succeeds and gives back the
    registry as it was before the Create. *)
Theorem create_then_close_restores_registry
    (unknown : DataType) (sql : string) (srv : SQLiteFlightSqlServer)
    (statement : SqliteStatement) :
  sqlite3_prepare (db_ srv) sql = inr statement ->
  well_formed (uuid_generator_ srv (uuid_draws srv)) ->
  prepared_statements_ srv !! uuid_generator_ srv (uuid_draws srv) = None ->
  exists res srv' srv'',
    CreatePreparedStatement unknown sql srv
    = (Done (SimpleResultStream [res]), srv')
    /\ ClosePreparedStatement (prepared_statement_handle res) srv'
       = (Done (SimpleResultStream []), srv'')
    /\ prepared_statements_ srv'' = prepared_statements_ srv.
Proof.
  intros E W F. eexists. eexists. eexists.
  split; [exact (create_accepted unknown sql srv statement E) |].
  cbn [prepared_statement_handle].
  split.
  - apply (close_known_handle _ _ _ statement (lexical_cast_to_string _ W)).
    apply lookup_insert_eq.
  - cbn. now apply delete_insert_id.
Qed.

Lemma create_then_close_restores_registry_witness :
  sqlite3_prepare (db_ fresh_server) example_sql = inr example_statement
  /\ well_formed (uuid_generator_ fresh_server (uuid_draws fresh_server))
  /\ prepared_statements_ fresh_server
       !! uuid_generator_ fresh_server (uuid_draws fresh_server) = None
  /\ exists res srv' srv'',
       CreatePreparedStatement null example_sql fresh_server
       = (Done (SimpleResultStream [res]), srv')
       /\ ClosePreparedStatement (prepared_statement_handle res) srv'
          = (Done (SimpleResultStream []), srv'')
       /\ prepared_statements_ srv'' = ∅.
Proof.
  split; [reflexivity |]. split; [reflexivity |]. split; [reflexivity |].
  exact (create_then_close_restores_registry null example_sql fresh_server
           example_statement eq_refl eq_refl eq_refl).
Defined.

End LifecycleFacts.


(** ** Ad hoc statements and metadata queries *)

Module StatementsFacts.
Import Uuid TypeMapper QueryBuilder KeysQuery Server Statements
  GetTablesFacts KeysQueryFacts.

(** The server once [query] was handed to the engine. *)
Lemma DoGetSQLiteQuery_run (query : string) (schema : Schema)
    (srv : SQLiteFlightSqlServer) :
  DoGetSQLiteQuery query schema srv
  = (match sqlite3_prepare (db_ srv) query with
     | inl status => Failed status
     | inr statement =>
         Done (RecordBatchStream (SqliteStatementBatchReader statement schema))
     end,
     with_db {| sqlite3_prepare := sqlite3_prepare (db_ srv);
                prepared_texts := prepared_texts (db_ srv) ++ [query] |} srv).
Proof.
  unfold DoGetSQLiteQuery, SqliteStatement_Create,
    SqliteStatementBatchReader_Create_with, bind, ret.
  destruct (sqlite3_prepare (db_ srv) query); reflexivity.
Qed.

(** X11.  An ad hoc query is never registered: the ticket of its flight
    info is the query text itself, and fetching the results with that
    ticket hands the same text to the engine a second time and reads the
    statement compiled then, under the schema the flight info
    announced. *)
Theorem statement_ticket_is_the_query
    (query : string) (srv : SQLiteFlightSqlServer)
    (statement : SqliteStatement) :
  sqlite3_prepare (db_ srv) query = inr statement ->
  exists info srv1 srv2,
    GetFlightInfoStatement query srv = (Done info, srv1)
    /\ statement_handle (statement_info_ticket info) = query
    /\ DoGetStatement (statement_info_ticket info) srv1
       = (Done (RecordBatchStream
                  (SqliteStatementBatchReader statement
                     (statement_info_schema info))), srv2)
    /\ prepared_texts (db_ srv2)
       = (prepared_texts (db_ srv) ++ [query; query])%list
    /\ prepared_statements_ srv2 = prepared_statements_ srv
    /\ uuid_draws srv2 = uuid_draws srv.
Proof.
  intros E. eexists. eexists. eexists.
  split.
  { unfold GetFlightInfoStatement, SqliteStatement_Create, GetSchema, bind, ret.
    rewrite E. reflexivity. }
  cbn [statement_info_ticket statement_handle statement_info_schema].
  split; [reflexivity |].
  split.
  { unfold DoGetStatement, SqliteStatement_Create,
      SqliteStatementBatchReader_Create, GetSchema, bind, ret.
    cbn. rewrite E. reflexivity. }
  cbn. rewrite <- app_assoc. repeat split.
Qed.

Lemma statement_ticket_is_the_query_witness :
  sqlite3_prepare (db_ fresh_server) example_sql = inr example_statement
  /\ exists info srv1 srv2,
       GetFlightInfoStatement example_sql fresh_server = (Done info, srv1)
       /\ DoGetStatement (statement_info_ticket info) srv1
          = (Done (RecordBatchStream
                     (SqliteStatementBatchReader example_statement
                        (statement_info_schema info))), srv2)
       /\ prepared_texts (db_ srv2) = [example_sql; example_sql].
Proof.
  split; [reflexivity |].
  destruct (statement_ticket_is_the_query example_sql fresh_server
              example_statement eq_refl)
    as (info & srv1 & srv2 & G & _ & D & T & _).
  exists info, srv1, srv2. split; [exact G |]. split; [exact D | exact T].
Defined.

(** X12.  GetPrimaryKeys hands the engine one text: the fixed selection
    of primary key columns, then a LIKE filter on the catalog and on the
    schema only when they are present, then, always and last, the LIKE
    filter on the table name.  It returns the engine's status when the
    text is rejected and never touches the registry. *)
Theorem primary_keys_query_text
    (schema : Schema) (command : CommandGetKeys)
    (srv : SQLiteFlightSqlServer) :
  exists query,
    query = primary_keys_select
            ++ optional_clause " and catalog_name LIKE '" (keys_catalog command)
            ++ optional_clause " and schema_name LIKE '" (keys_schema command)
            ++ " and table_name LIKE '" ++ keys_table command ++ "'"
    /\ ends_in query
         (" and table_name LIKE '" ++ keys_table command ++ "'")
    /\ prepared_texts (db_ (snd (DoGetPrimaryKeys schema command srv)))
       = (prepared_texts (db_ srv) ++ [query])%list
    /\ fst (DoGetPrimaryKeys schema command srv)
       = match sqlite3_prepare (db_ srv) query with
         | inl status => Failed status
         | inr statement =>
             Done (RecordBatchStream
                     (SqliteStatementBatchReader statement schema))
         end
    /\ prepared_statements_ (snd (DoGetPrimaryKeys schema command srv))
       = prepared_statements_ srv.
Proof.
  eexists. split; [reflexivity |].
  split.
  { unfold ends_in. eexists. rewrite <- !append_assoc. reflexivity. }
  assert (DoGetPrimaryKeys schema command srv
          = DoGetSQLiteQuery
              (primary_keys_select
               ++ optional_clause " and catalog_name LIKE '"
                    (keys_catalog command)
               ++ optional_clause " and schema_name LIKE '"
                    (keys_schema command)
               ++ " and table_name LIKE '" ++ keys_table command ++ "'")
              schema srv) as ->.
  { unfold DoGetPrimaryKeys, optional_clause, primary_keys_select.
    destruct (keys_catalog command), (keys_schema command);
      rewrite ?append_assoc; reflexivity. }
  rewrite DoGetSQLiteQuery_run. repeat split.
Qed.

(** X13.  Filter values are spliced into the GetTables text as they are:
    a catalog value that carries the text of a schema clause gives the
    very query of the catalog and schema filters given apart. *)
Theorem get_tables_filter_is_not_escaped
    (a b : string) (tab : option string) (types : list string)
    (incl : bool) :
  PrepareQueryForGetTables
    {| catalog := Some (a ++ "' and schema_name LIKE '" ++ b);
       schema_filter_pattern := None;
       table_name_filter_pattern := tab;
       table_types := types;
       include_schema := incl |}
  = PrepareQueryForGetTables
      {| catalog := Some a;
         schema_filter_pattern := Some b;
         table_name_filter_pattern := tab;
         table_types := types;
         include_schema := incl |}.
Proof.
  rewrite !PrepareQueryForGetTables_closed_form.
  unfold GetTables_text, optional_clause.
  cbn [catalog schema_filter_pattern table_name_filter_pattern table_types].
  rewrite !append_assoc. reflexivity.
Qed.

End StatementsFacts.


(** ** The key queries *)

Module KeyRowsFacts.
Import QueryBuilder KeysQuery Server Statements KeysQueryFacts StatementsFacts.








End KeyRowsFacts.

(** ** Requests that leave the registry alone *)

Module ReadOnlyFacts.
Import Uuid QueryBuilder Server Statements RegistryFacts LifecycleFacts
  StatementsFacts.

Section ReadOnly.
Variables catalogs schemas tables table_types keys : Schema.
Variable unknown : DataType.

Lemma query_leaves_registry (query : string) (schema : Schema)
    (srv : SQLiteFlightSqlServer) :
  prepared_statements_ (snd (DoGetSQLiteQuery query schema srv))
  = prepared_statements_ srv
  /\ uuid_draws (snd (DoGetSQLiteQuery query schema srv)) = uuid_draws srv
  /\ uuid_generator_ (snd (DoGetSQLiteQuery query schema srv))
     = uuid_generator_ srv.
Proof. rewrite DoGetSQLiteQuery_run. repeat split. Qed.

Lemma serve_leaves_registry (srv : SQLiteFlightSqlServer) (r : Request) :
  leaves_registry r ->
  prepared_statements_
    (serve catalogs schemas tables table_types keys unknown srv r)
  = prepared_statements_ srv
  /\ uuid_draws (serve catalogs schemas tables table_types keys unknown srv r)
     = uuid_draws srv
  /\ uuid_generator_
       (serve catalogs schemas tables table_types keys unknown srv r)
     = uuid_generator_ srv.
Proof.
  destruct r as [query | handle | handle | handle | handle reader
    | | command | command | | command | command]; cbn [leaves_registry serve];
    intros H; try contradiction.
  - destruct (lookup_keeps_server srv handle) as (-> & _). repeat split.
  - destruct (lookup_keeps_server srv handle) as (_ & ->). repeat split.
  - repeat split.
  - repeat split.
  - unfold DoGetTables, SqliteStatement_Create,
      SqliteStatementBatchReader_Create_with, bind, ret.
    destruct (sqlite3_prepare (db_ srv) _);
      [| destruct (include_schema command)]; repeat split.
  - apply query_leaves_registry.
  - apply query_leaves_registry.
  - apply query_leaves_registry.
Qed.

(** X16.  Any sequence of lookups and metadata requests (no Create, no
    Close, no bind) leaves the registry and the uuid generator exactly
    as they were: the handles that resolved before still resolve to the
    same statements, and the next uuid to be drawn is the same. *)
Theorem lookups_and_metadata_leave_registry
    (srv : SQLiteFlightSqlServer) (rs : list Request) :
  Forall leaves_registry rs ->
  prepared_statements_
    (serve_all catalogs schemas tables table_types keys unknown srv rs)
  = prepared_statements_ srv
  /\ uuid_draws
       (serve_all catalogs schemas tables table_types keys unknown srv rs)
     = uuid_draws srv
  /\ uuid_generator_
       (serve_all catalogs schemas tables table_types keys unknown srv rs)
     = uuid_generator_ srv.
Proof.
  intros F. revert srv; induction F as [| r rs Hr F IH]; intros srv;
    [repeat split |].
  cbn [serve_all fold_left].
  destruct (serve_leaves_registry srv r Hr) as (A & B & C).
  destruct (IH (serve catalogs schemas tables table_types keys unknown srv r))
    as (A' & B' & C').
  unfold serve_all in A', B', C'. rewrite A', B', C'. auto.
Qed.

End ReadOnly.

Lemma lookups_and_metadata_leave_registry_witness :
  Forall leaves_registry
    [ GetTableTypes; DoGetPrepared nil_handle; GetCatalogs;
      GetImportedKeys (keys_of_intTable None);
      GetFlightInfoPrepared "not-a-uuid" ]
  /\ prepared_statements_
       (serve_all [] [] [] [] [] null one_statement_server
          [ GetTableTypes; DoGetPrepared nil_handle; GetCatalogs;
            GetImportedKeys (keys_of_intTable None);
            GetFlightInfoPrepared "not-a-uuid" ])
     = {[ nil_uuid := example_statement ]}.
Proof.
  assert (Forall leaves_registry
            [ GetTableTypes; DoGetPrepared nil_handle; GetCatalogs;
              GetImportedKeys (keys_of_intTable None);
              GetFlightInfoPrepared "not-a-uuid" ]) as F
    by (repeat constructor).
  split; [exact F |].
  exact (proj1 (lookups_and_metadata_leave_registry [] [] [] [] [] null
                  one_statement_server _ F)).
Defined.

End ReadOnlyFacts.
